(** * githd: the command layer ([src/commands.ts])

    A shallow embedding of the command handlers of the git history
    browser and of the helpers they are built from, followed by the
    properties of the interactive reference resolution.

    The handlers are asynchronous TypeScript methods that prompt the user,
    read the git service and replace the view contexts held by the model.
    They are embedded in a state-and-exception monad over a [World] that
    holds the model, the store of context objects (contexts are JavaScript
    objects: the model holds references to them), the answers the user is
    going to give and the log of what the window has shown.

    A handler is embedded together with the [then] continuations it
    schedules: one invocation runs until its last continuation has run,
    and an exception thrown in a continuation (a rejected promise) is the
    way the invocation ends.  The queries of the git service are pure
    functions of the repository. *)

From Stdlib Require Import Ascii String.
From stdpp Require Import base option list strings.

Set Default Proof Using "Type".

(** ** JavaScript values and library functions used by the source *)

Module Js.

(** A value of TypeScript type [string] as it occurs at run time: the
    compiler does not exclude [null] and [undefined]. *)
Inductive opt_string : Type :=
| Null
| Undefined
| Str (s : string).

Global Instance opt_string_eq_dec : EqDecision opt_string.
Proof. solve_decision. Defined.

(** [ToBoolean]: a string is truthy unless it is empty. *)
Definition truthy (v : opt_string) : bool :=
  match v with
  | Str s => negb (String.eqb s "")
  | _ => false
  end.

(** [ToString], as applied by [+] and by template literals. *)
Definition to_string (v : opt_string) : string :=
  match v with
  | Null => "null"
  | Undefined => "undefined"
  | Str s => s
  end.

(** [a === b] where [a] is a string. *)
Definition strict_eq (a : string) (b : opt_string) : bool :=
  match b with
  | Str s => String.eqb a s
  | _ => false
  end.

(** [a || b] on an optional string and a string. *)
Definition or_else (a : option string) (b : string) : string :=
  match a with
  | Some s => if String.eqb s "" then b else s
  | None => b
  end.

Fixpoint repeat (s : string) (n : nat) : string :=
  match n with
  | 0 => ""
  | S n' => s +:+ repeat s n'
  end.

Inductive Error : Type :=
| TypeError (msg : string)
| AssertionError (msg : string).

(** *** [String.prototype.trim]

    Strings are kept as UTF-8 byte sequences; the white space and line
    terminator code points of ECMAScript are listed in that encoding. *)

Definition bytes (l : list nat) : list ascii := map ascii_of_nat l.

Definition white_space : list (list ascii) :=
  [ bytes [9]; bytes [10]; bytes [11]; bytes [12]; bytes [13]; bytes [32];
    bytes [194; 160];                       (* U+00A0 *)
    bytes [225; 154; 128];                  (* U+1680 *)
    bytes [226; 128; 128]; bytes [226; 128; 129]; bytes [226; 128; 130];
    bytes [226; 128; 131]; bytes [226; 128; 132]; bytes [226; 128; 133];
    bytes [226; 128; 134]; bytes [226; 128; 135]; bytes [226; 128; 136];
    bytes [226; 128; 137]; bytes [226; 128; 138];  (* U+2000 .. U+200A *)
    bytes [226; 128; 168]; bytes [226; 128; 169];  (* U+2028, U+2029 *)
    bytes [226; 128; 175];                  (* U+202F *)
    bytes [226; 129; 159];                  (* U+205F *)
    bytes [227; 128; 128];                  (* U+3000 *)
    bytes [239; 187; 191] ].                (* U+FEFF *)

Fixpoint starts_with (p l : list ascii) : bool :=
  match p, l with
  | [], _ => true
  | a :: p', b :: l' => Ascii.eqb a b && starts_with p' l'
  | _ :: _, [] => false
  end.

(** Length of the white space character [l] begins with, in the table
    [ws]; [0] when it begins with none. *)
Definition ws_width (ws : list (list ascii)) (l : list ascii) : nat :=
  match List.find (fun p => starts_with p l) ws with
  | Some p => length p
  | None => 0
  end.

Fixpoint strip (ws : list (list ascii)) (fuel : nat) (l : list ascii)
  : list ascii :=
  match fuel with
  | 0 => l
  | S fuel' =>
      match ws_width ws l with
      | 0 => l
      | k => strip ws fuel' (drop k l)
      end
  end.

Definition trimStart (l : list ascii) : list ascii :=
  strip white_space (length l) l.

Definition trimEnd (l : list ascii) : list ascii :=
  rev (strip (map (@rev ascii) white_space) (length l) (rev l)).

Definition trim (s : string) : string :=
  string_of_list_ascii (trimEnd (trimStart (list_ascii_of_string s))).

(** *** [JSON.stringify] on strings *)

Definition hex_digit (n : nat) : ascii :=
  ascii_of_nat (if Nat.ltb n 10 then 48 + n else 87 + n).

Definition quote_char : ascii := ascii_of_nat 34.
Definition backslash : ascii := ascii_of_nat 92.

Definition json_escape (c : ascii) : string :=
  let n := nat_of_ascii c in
  if Nat.eqb n 34 then String backslash (String quote_char "")
  else if Nat.eqb n 92 then String backslash (String backslash "")
  else if Nat.eqb n 8 then String backslash "b"
  else if Nat.eqb n 9 then String backslash "t"
  else if Nat.eqb n 10 then String backslash "n"
  else if Nat.eqb n 12 then String backslash "f"
  else if Nat.eqb n 13 then String backslash "r"
  else if Nat.ltb n 32 then
    String backslash
      ("u00" +:+ String (hex_digit (n / 16)) (String (hex_digit (n mod 16)) ""))
  else String c "".

Fixpoint json_escape_all (s : string) : string :=
  match s with
  | EmptyString => ""
  | String c s' => json_escape c +:+ json_escape_all s'
  end.

Definition json_string (s : string) : string :=
  String quote_char (json_escape_all s +:+ String quote_char "").

(** *** [path.basename] of Node, POSIX flavour: trailing separators are
    ignored and the part after the last remaining separator is kept. *)

Definition is_sep (c : ascii) : bool := Ascii.eqb c "/".

Fixpoint drop_seps (l : list ascii) : list ascii :=
  match l with
  | c :: l' => if is_sep c then drop_seps l' else l
  | [] => []
  end.

Fixpoint take_segment (l : list ascii) : list ascii :=
  match l with
  | c :: l' => if is_sep c then [] else c :: take_segment l'
  | [] => []
  end.

Definition basename (p : string) : string :=
  string_of_list_ascii
    (rev (take_segment (drop_seps (rev (list_ascii_of_string p))))).

End Js.

Import Js.

(** ** The data the commands work on *)

Record GitRepo : Type := { root : string }.

Inductive GitRefType : Type := Head | RemoteHead | Tag.

(** A reference: [name] may be missing, [commit] is the hash. *)
Record GitRef : Type :=
  { ref_type : GitRefType; ref_name : option string; ref_commit : string }.

Record Author : Type := { author_name : string; author_email : string }.

(** A [vscode.Uri], reduced to the components the commands read. *)
Record Uri : Type :=
  { uri_scheme : string; uri_path : string; uri_query : string;
    uri_fsPath : string }.

Record GitCommittedFile : Type :=
  { file_uri : Uri; gitRelativePath : string }.

Global Instance GitRepo_eq_dec : EqDecision GitRepo.
Proof. solve_decision. Defined.
Global Instance Uri_eq_dec : EqDecision Uri.
Proof. solve_decision. Defined.

(** The read interface of [GitService] ([gitService.ts] is an external
    collaborator).  Nothing in the handlers checks that a repository was
    found before it is handed to the service, hence [option GitRepo]. *)
Record GitService : Type :=
  { getGitRepos : list GitRepo;
    getGitRepo : Uri -> option GitRepo;
    getRefs : option GitRepo -> list GitRef;
    getCurrentBranch : option GitRepo -> opt_string;
    getAuthors : option GitRepo -> list Author }.

(** Contexts published to the model ([model.ts] declares the types; the
    fields are the ones the handlers write). *)
Record HistoryViewContext : Type :=
  { h_repo : option GitRepo;
    h_specifiedPath : option Uri;
    h_line : option nat;
    h_branch : option string;
    h_author : option string }.

Record FilesViewContext : Type :=
  { f_repo : option GitRepo;
    leftRef : opt_string;
    rightRef : opt_string;
    f_specifiedPath : option Uri }.

Global Instance FilesViewContext_eq_dec : EqDecision FilesViewContext.
Proof. solve_decision. Defined.

Definition set_branch (b : string) (c : HistoryViewContext) : HistoryViewContext :=
  {| h_repo := h_repo c; h_specifiedPath := h_specifiedPath c;
     h_line := h_line c; h_branch := Some b; h_author := h_author c |}.

Definition set_author (a : string) (c : HistoryViewContext) : HistoryViewContext :=
  {| h_repo := h_repo c; h_specifiedPath := h_specifiedPath c;
     h_line := h_line c; h_branch := h_branch c; h_author := Some a |}.

(** ** Pick items *)

(** The interface [QuickPickItem] of the editor. *)
Class QuickPickItem (T : Type) : Type :=
  { label : T -> string; description : T -> string }.

(** What [selectBranch] and [selectAuthor] return: plain objects with a
    label and a description, and instances of [EnterShaPickItem], told
    apart by the property [openShaTextBox] (missing, hence falsy, on a
    plain object). *)
Record PickItem : Type :=
  { pi_label : string; pi_description : string; openShaTextBox : bool }.

Record RepoPickItem : Type :=
  { rp_label : string; rp_description : string; repo : GitRepo }.

Global Instance PickItem_quick : QuickPickItem PickItem :=
  {| label := pi_label; description := pi_description |}.

Global Instance RepoPickItem_quick : QuickPickItem RepoPickItem :=
  {| label := rp_label; description := rp_description |}.

Definition EnterShaPickItem : PickItem :=
  {| pi_label := "Enter commit SHA"; pi_description := "";
     openShaTextBox := true |}.

(** ** The window, the model and the monad of the handlers *)

(** One answer of the user to one prompt.  [Pick i] chooses the [i]-th
    entry of the list that is shown, [Submit s] confirms the text [s],
    [Dismiss] closes the prompt.  An answer that does not fit the prompt
    (a position outside the list, text typed at a list) closes it too,
    and so does the end of the answers. *)
Inductive Answer : Type :=
| Pick (i : nat)
| Submit (s : string)
| Dismiss.

Inductive InputBoxOptions : Type :=
| Prompt (s : string)
| PlaceHolder (s : string).

(** What the user has been shown, in order. *)
Inductive Event : Type :=
| QuickPickShown (items : list (string * string)) (placeHolder : string)
| InputBoxShown (options : InputBoxOptions)
| ErrorMessageShown (msg : string)
| DiffOpened (left right : Uri) (title : string)
| LineDiffOpened (content : string).

Definition loc : Type := nat.

Record World : Type :=
  { filesViewContext : option loc;       (* this._model.filesViewContext *)
    historyViewContext : option loc;     (* this._model.historyViewContext *)
    files_objects : list FilesViewContext;
    history_objects : list HistoryViewContext;
    loadAll : bool;                      (* this._historyView.loadAll *)
    express : bool;                      (* this._historyView.express *)
    activeTextEditor : option (Uri * nat);  (* document uri, active line *)
    answers : list Answer;
    shown : list Event }.

Definition with_filesViewContext (v : option loc) (w : World) : World :=
  {| filesViewContext := v; historyViewContext := historyViewContext w;
     files_objects := files_objects w; history_objects := history_objects w;
     loadAll := loadAll w; express := express w;
     activeTextEditor := activeTextEditor w;
     answers := answers w; shown := shown w |}.

Definition with_historyViewContext (v : option loc) (w : World) : World :=
  {| filesViewContext := filesViewContext w; historyViewContext := v;
     files_objects := files_objects w; history_objects := history_objects w;
     loadAll := loadAll w; express := express w;
     activeTextEditor := activeTextEditor w;
     answers := answers w; shown := shown w |}.

Definition with_files_objects (v : list FilesViewContext) (w : World) : World :=
  {| filesViewContext := filesViewContext w;
     historyViewContext := historyViewContext w;
     files_objects := v; history_objects := history_objects w;
     loadAll := loadAll w; express := express w;
     activeTextEditor := activeTextEditor w;
     answers := answers w; shown := shown w |}.

Definition with_history_objects (v : list HistoryViewContext) (w : World) : World :=
  {| filesViewContext := filesViewContext w;
     historyViewContext := historyViewContext w;
     files_objects := files_objects w; history_objects := v;
     loadAll := loadAll w; express := express w;
     activeTextEditor := activeTextEditor w;
     answers := answers w; shown := shown w |}.

Definition with_loadAll (v : bool) (w : World) : World :=
  {| filesViewContext := filesViewContext w;
     historyViewContext := historyViewContext w;
     files_objects := files_objects w; history_objects := history_objects w;
     loadAll := v; express := express w;
     activeTextEditor := activeTextEditor w;
     answers := answers w; shown := shown w |}.

Definition with_express (v : bool) (w : World) : World :=
  {| filesViewContext := filesViewContext w;
     historyViewContext := historyViewContext w;
     files_objects := files_objects w; history_objects := history_objects w;
     loadAll := loadAll w; express := v;
     activeTextEditor := activeTextEditor w;
     answers := answers w; shown := shown w |}.

Definition with_answers (v : list Answer) (w : World) : World :=
  {| filesViewContext := filesViewContext w;
     historyViewContext := historyViewContext w;
     files_objects := files_objects w; history_objects := history_objects w;
     loadAll := loadAll w; express := express w;
     activeTextEditor := activeTextEditor w;
     answers := v; shown := shown w |}.

Definition with_shown (v : list Event) (w : World) : World :=
  {| filesViewContext := filesViewContext w;
     historyViewContext := historyViewContext w;
     files_objects := files_objects w; history_objects := history_objects w;
     loadAll := loadAll w; express := express w;
     activeTextEditor := activeTextEditor w;
     answers := answers w; shown := v |}.

(** How a handler ends: normally, or with an exception (for an [async]
    method, a rejected promise). *)
Inductive Completion (A : Type) : Type :=
| Normal (a : A)
| Thrown (e : Error).
Arguments Normal {A} a.
Arguments Thrown {A} e.

Definition Async (A : Type) : Type := World -> Completion A * World.

Global Instance Async_ret : MRet Async := fun A a w => (Normal a, w).

Global Instance Async_bind : MBind Async := fun A B k m w =>
  match m w with
  | (Normal a, w') => k a w'
  | (Thrown e, w') => (Thrown e, w')
  end.

Definition throw {A : Type} (e : Error) : Async A := fun w => (Thrown e, w).

Definition read {A : Type} (f : World -> A) : Async A := fun w => (Normal (f w), w).

Definition update (f : World -> World) : Async unit := fun w => (Normal tt, f w).

(** The world a handler leaves behind, and how it ended. *)
Definition exec {A : Type} (m : Async A) (w : World) : World := snd (m w).
Definition result {A : Type} (m : Async A) (w : World) : Completion A := fst (m w).

(** The events a handler adds to the log. *)
Definition shown_by {A : Type} (m : Async A) (w : World) : list Event :=
  drop (length (shown w)) (shown (exec m w)).

Definition next_answer : Async (option Answer) := fun w =>
  match answers w with
  | a :: rest => (Normal (Some a), with_answers rest w)
  | [] => (Normal None, w)
  end.

Definition show (e : Event) : Async unit :=
  update (fun w => with_shown (shown w ++ [e]) w).

(** [window.showQuickPick]: resolves to the chosen item, or to
    [undefined] when the list is dismissed. *)
Definition showQuickPick {T : Type} `{QuickPickItem T}
    (items : list T) (placeHolder : string) : Async (option T) :=
  show (QuickPickShown (map (fun it => (label it, description it)) items) placeHolder);;
  a ← next_answer;
  mret (match a with
        | Some (Pick i) => items !! i
        | _ => None
        end).

(** [window.showInputBox]: resolves to the text, or to [undefined]. *)
Definition showInputBox (options : InputBoxOptions) : Async opt_string :=
  show (InputBoxShown options);;
  a ← next_answer;
  mret (match a with
        | Some (Submit s) => Str s
        | _ => Undefined
        end).

Definition showErrorMessage (msg : string) : Async unit :=
  show (ErrorMessageShown msg).

(** An object literal of type [FilesViewContext]: a new object. *)
Definition new_files (c : FilesViewContext) : Async loc := fun w =>
  (Normal (length (files_objects w)),
   with_files_objects (files_objects w ++ [c]) w).

Definition new_history (c : HistoryViewContext) : Async loc := fun w =>
  (Normal (length (history_objects w)),
   with_history_objects (history_objects w ++ [c]) w).

(** Reading through a reference; a reference to nothing behaves as
    [undefined], whose properties cannot be read. *)
Definition read_history (l : loc) : Async HistoryViewContext := fun w =>
  match history_objects w !! l with
  | Some c => (Normal c, w)
  | None => (Thrown (TypeError "Cannot read properties of undefined"), w)
  end.

(** An assignment to a field of the object at [l]. *)
Definition write_history (l : loc) (f : HistoryViewContext -> HistoryViewContext)
  : Async unit := fun w =>
  match history_objects w !! l with
  | Some c => (Normal tt, with_history_objects (<[l := f c]> (history_objects w)) w)
  | None => (Thrown (TypeError "Cannot set properties of undefined"), w)
  end.

(** The context the model currently holds, read through its reference. *)
Definition current_files (w : World) : option FilesViewContext :=
  l ← filesViewContext w; files_objects w !! l.

Definition current_history (w : World) : option HistoryViewContext :=
  l ← historyViewContext w; history_objects w !! l.

(** Modelled from the spec: the setter of [Model.filesViewContext] and
    [Model.setHistoryViewContext] live in [model.ts]; each replaces the
    context the model holds by the one it is given. *)
Definition set_filesViewContext (l : loc) : Async unit :=
  update (with_filesViewContext (Some l)).

Definition setHistoryViewContext (l : option loc) : Async unit :=
  update (with_historyViewContext l).

(** [this._model.filesViewContext = { ... }] *)
Definition publish_files (c : FilesViewContext) : Async unit :=
  l ← new_files c; set_filesViewContext l.

(** [t.then(k)] where [t] is [null] or a promise. *)
Definition then_ {A B : Type} (t : option (Async A)) (k : A -> Async B) : Async B :=
  match t with
  | Some p => p ≫= k
  | None => throw (TypeError "Cannot read properties of null (reading 'then')")
  end.

(** [await Promise.resolve(t)] where [t] is [null] or a promise of a
    nullable value. *)
Definition await_resolve {A : Type} (t : option (Async (option A))) : Async (option A) :=
  match t with
  | Some p => p
  | None => mret None
  end.

(** ** The helpers and the handlers of [commands.ts] *)

Section Commands.

Variable gitService : GitService.

Definition git_query (path : string) (ref : opt_string) : string :=
  "{" +:+ json_string "path" +:+ ":" +:+ json_string path +:+
  match ref with
  | Undefined => ""
  | Null => "," +:+ json_string "ref" +:+ ":null"
  | Str r => "," +:+ json_string "ref" +:+ ":" +:+ json_string r
  end +:+ "}".

(** [uri.with] replaces the scheme, the path and the query.  The editor
    derives [fsPath] of the result from its components; the record keeps
    the one of the argument, and no property below reads it on a
    result. *)
Definition toGitUri (uri : Uri) (ref : opt_string) : Uri :=
  {| uri_scheme := "git"; uri_path := uri_path uri;
     uri_query := git_query (uri_fsPath uri) ref;
     uri_fsPath := uri_fsPath uri |}.

(** U+00A0 *)
Definition SpaceChar : string :=
  String (ascii_of_nat 194) (String (ascii_of_nat 160) "").

Definition ref_description (ref : GitRef) : string :=
  match ref_type ref with
  | Head => ref_commit ref
  | Tag => "Tag at " +:+ ref_commit ref
  | RemoteHead => "Remote branch at " +:+ ref_commit ref
  end.

(** [ref.name || ref.commit] *)
Definition ref_label (ref : GitRef) : string :=
  or_else (ref_name ref) (ref_commit ref).

Definition branch_item (currentRef : opt_string) (selectCurRef : bool)
    (ref : GitRef) : PickItem :=
  let branch_label := ref_label ref in
  {| pi_label :=
       if selectCurRef then
         (if strict_eq branch_label currentRef
          then "$(check)" +:+ SpaceChar
          else Js.repeat SpaceChar 4) +:+ " " +:+ branch_label
       else branch_label;
     pi_description := ref_description ref;
     openShaTextBox := false |}.

Definition selectBranch (repo : option GitRepo)
    (allowEnterSha selectCurRef : bool) : list PickItem :=
  let refs := getRefs gitService repo in
  let currentRef := getCurrentBranch gitService repo in
  let items := map (branch_item currentRef selectCurRef) refs in
  if allowEnterSha then EnterShaPickItem :: items else items.

Definition repo_item (r : GitRepo) : RepoPickItem :=
  {| rp_label := basename (root r); rp_description := root r; repo := r |}.

(** The result is [null] (not a promise) when there is no repository. *)
Definition selectGitRepo : option (Async (option GitRepo)) :=
  let repos := getGitRepos gitService in
  if Nat.eqb (length repos) 0 then None
  else if Nat.eqb (length repos) 1 then Some (mret (repos !! 0))
  else
    let pickItems := map repo_item repos in
    Some (item ← showQuickPick pickItems "Select the git repo";
          mret (match item with
                | Some it => Some (repo it)
                | None => None
                end)).

Definition getRefFromQuickPickItem (item : PickItem) (inputBoxTitle : string)
  : Async opt_string :=
  if openShaTextBox item
  then showInputBox (Prompt inputBoxTitle)
  else mret (Str (pi_label item)).

(** [unshift] prepends "All" to the array the service returns; the
    service is taken to return a new array on every call. *)
Definition selectAuthor (repo : option GitRepo) : list PickItem :=
  let authors := {| author_name := "All"; author_email := "" |}
                   :: getAuthors gitService repo in
  map (fun author =>
         {| pi_label := author_name author;
            pi_description := author_email author;
            openShaTextBox := false |}) authors.

Definition _viewHistory (context : option loc) (all : bool) : Async unit :=
  update (with_loadAll all);;
  setHistoryViewContext context.

Definition history_literal (repo : option GitRepo) (specifiedPath : option Uri)
    (line : option nat) (branch : option string) : HistoryViewContext :=
  {| h_repo := repo; h_specifiedPath := specifiedPath; h_line := line;
     h_branch := branch; h_author := None |}.

(** [defaultRef] is accepted and not used. *)
Definition _choseBranchOnPick (repo : GitRepo) (placeholder : string)
    (allowEnterSha : bool) (defaultRef : bool) : Async (option PickItem) :=
  showQuickPick (selectBranch (Some repo) allowEnterSha false) placeholder.

Definition clear : Async unit :=
  publish_files {| f_repo := None; leftRef := Null; rightRef := Null;
                   f_specifiedPath := None |}.

Definition viewHistory : Async unit :=
  then_ selectGitRepo (fun repo =>
    match repo with
    | Some r =>
        c ← new_history (history_literal (Some r) None None None);
        _viewHistory (Some c) false
    | None => mret tt
    end).

(** The argument defaults to the document of the active editor. *)
Definition viewFileHistory (arg : option Uri) : Async unit :=
  editor ← read activeTextEditor;
  let specifiedPath :=
    match arg with
    | Some u => Some u
    | None => fst <$> editor
    end in
  match specifiedPath with
  | None => mret tt
  | Some p =>
      c ← new_history (history_literal (getGitRepo gitService p) (Some p) None None);
      _viewHistory (Some c) false
  end.

Definition viewFolderHistory (specifiedPath : option Uri) : Async unit :=
  viewFileHistory specifiedPath.

Definition viewLineHistory (arg : option Uri) : Async unit :=
  editor ← read activeTextEditor;
  let file :=
    match arg with
    | Some u => Some u
    | None => fst <$> editor
    end in
  match file with
  | None => mret tt
  | Some f =>
      match editor with
      | None => mret tt
      | Some (_, active_line) =>
          let line := active_line + 1 in
          c ← new_history
                (history_literal (getGitRepo gitService f) (Some f) (Some line) None);
          _viewHistory (Some c) false
      end
  end.

Definition viewAllHistory : Async unit :=
  current ← read historyViewContext;
  match current with
  | Some l => _viewHistory (Some l) true
  | None =>
      c ← new_history (history_literal (getGitRepos gitService !! 0) None None None);
      _viewHistory (Some c) true
  end.

(** [repo.root] on a repository that may be missing. *)
Definition root_of (repo : option GitRepo) : Async string :=
  match repo with
  | Some r => mret (root r)
  | None => throw (TypeError "Cannot read properties of undefined (reading 'root')")
  end.

Definition viewBranchHistory (context : option loc) : Async unit :=
  let placeHolder := "Select a ref to see it's history" in
  match context with
  | Some ctx =>
      c ← read_history ctx;
      let repo := h_repo c in
      current ← read historyViewContext;
      match current with
      | None => throw (TypeError "Cannot read properties of undefined (reading 'specifiedPath')")
      | Some cur =>
          m ← read_history cur;
          let placeHolder :=
            match h_specifiedPath m with
            | Some sp => placeHolder +:+ " of " +:+ basename (uri_fsPath sp)
            | None => placeHolder
            end in
          r ← root_of repo;
          let placeHolder := placeHolder +:+ " (" +:+ r +:+ ")" in
          item ← showQuickPick (selectBranch repo false false) placeHolder;
          match item with
          | Some it =>
              write_history ctx (set_branch (pi_label it));;
              _viewHistory (Some ctx) false
          | None => mret tt
          end
      end
  | None =>
      repo ← await_resolve selectGitRepo;
      match repo with
      | None => mret tt
      | Some r =>
          let placeHolder := placeHolder +:+ " (" +:+ root r +:+ ")" in
          item ← showQuickPick (selectBranch (Some r) false false) placeHolder;
          match item with
          | Some it =>
              c ← new_history (history_literal (Some r) None None (Some (pi_label it)));
              _viewHistory (Some c) false
          | None => mret tt
          end
      end
  end.

Definition viewAuthorHistory : Async unit :=
  current ← read historyViewContext;
  match current with
  | None => throw (AssertionError "history view context should exist")
  | Some l =>
      context ← read_history l;
      let placeHolder := "Select a author to see his/her commits" in
      item ← showQuickPick (selectAuthor (h_repo context)) placeHolder;
      match item with
      | Some it =>
          let email := pi_description it in
          context ← read historyViewContext;
          match context with
          | Some c => write_history c (set_author email)
          | None => mret tt
          end;;
          _viewHistory context false
      | None => mret tt
      end
  end.

Definition diffBranch : Async unit :=
  then_ selectGitRepo (fun repo =>
    match repo with
    | None => mret tt
    | Some r =>
        sourceBranch ← _choseBranchOnPick r
          ("Select source branch to compare (" +:+ root r +:+ ")") true true;
        match sourceBranch with
        | None => showErrorMessage "Invalid Branch"
        | Some source =>
            targetBranch ← _choseBranchOnPick r
              ("Select target branch to compare with " +:+ pi_label source
               +:+ " (" +:+ root r +:+ ")") true false;
            match targetBranch with
            | None => showErrorMessage "Invalid Branch"
            | Some target =>
                lref ← getRefFromQuickPickItem source
                         "Input a ref(sha1) as a source branch";
                rref ← getRefFromQuickPickItem target
                         "Input a ref(sha1) as a target branch";
                publish_files {| f_repo := Some r; leftRef := lref;
                                 rightRef := rref; f_specifiedPath := None |}
            end
        end
    end).

Definition diffFile (specifiedPath : option Uri) : Async unit :=
  match specifiedPath with
  | None => mret tt
  | Some sp =>
      let repo := getGitRepo gitService sp in
      item ← showQuickPick (selectBranch repo true false)
               ("Select a ref to see the diff of " +:+ basename (uri_path sp));
      match item with
      | None => mret tt
      | Some it =>
          let currentRef := getCurrentBranch gitService repo in
          lref ← getRefFromQuickPickItem it
                   ("Input a ref(sha1) to compare with " +:+ to_string currentRef);
          if truthy lref then
            publish_files {| f_repo := repo; leftRef := lref;
                             rightRef := currentRef; f_specifiedPath := Some sp |}
          else mret tt
      end
  end.

Definition diffFolder (specifiedPath : option Uri) : Async unit :=
  diffFile specifiedPath.

(** [ref.trim()] *)
Definition trim_of (ref : opt_string) : Async string :=
  match ref with
  | Str s => mret (trim s)
  | _ => throw (TypeError "Cannot read properties of undefined (reading 'trim')")
  end.

Definition inputRef : Async unit :=
  then_ selectGitRepo (fun repo =>
    match repo with
    | None => mret tt
    | Some r =>
        ref ← showInputBox (PlaceHolder "Input a ref(sha1) to see it's committed files");
        t ← trim_of ref;
        publish_files {| f_repo := Some r; leftRef := Null; rightRef := Str t;
                         f_specifiedPath := None |}
    end).

(** Lines 287 to 293 of [openCommittedFile]: the left side, the right
    side and the title, from the context the model holds. *)
Definition diff_sides (c : FilesViewContext) : opt_string * opt_string * opt_string :=
  let rref := rightRef c in
  let lref := Str (to_string rref +:+ "~") in
  let title := rref in
  if truthy (leftRef c)
  then (leftRef c, rref,
        Str (to_string (leftRef c) +:+ " .. " +:+ to_string rref))
  else (lref, rref, title).

Definition openCommittedFile (file : GitCommittedFile) : Async unit :=
  current ← read current_files;
  match current with
  | None => throw (TypeError "Cannot read properties of undefined (reading 'rightRef')")
  | Some c =>
      let '(lref, rref, title) := diff_sides c in
      show (DiffOpened (toGitUri (file_uri file) lref)
                       (toGitUri (file_uri file) rref)
                       (to_string title +:+ " | " +:+ basename (gitRelativePath file)))
  end.

(** The line-diff view and the editor are not part of the model; the
    handler is kept as the event of its content being displayed. *)
Definition openLineDiff (content : string) : Async unit :=
  show (LineDiffOpened content).

Definition setExpressMode : Async unit :=
  e ← read express; update (with_express (negb e)).

End Commands.


(** The table [Commands]: a registered identifier together with the
    arguments the host supplies, and the method it is bound to. *)
Inductive Invocation : Type :=
| githd_clear
| githd_viewHistory
| githd_viewFileHistory (specifiedPath : option Uri)
| githd_viewFolderHistory (specifiedPath : option Uri)
| githd_viewLineHistory (file : option Uri)
| githd_viewAllHistory
| githd_viewBranchHistory (context : option loc)
| githd_viewAuthorHistory
| githd_diffBranch
| githd_diffFile (specifiedPath : option Uri)
| githd_diffFolder (specifiedPath : option Uri)
| githd_inputRef
| githd_openCommittedFile (file : GitCommittedFile)
| githd_openLineDiff (content : string)
| githd_setExpressMode.

Definition method (svc : GitService) (c : Invocation) : Async unit :=
  match c with
  | githd_clear => clear
  | githd_viewHistory => viewHistory svc
  | githd_viewFileHistory p => viewFileHistory svc p
  | githd_viewFolderHistory p => viewFolderHistory svc p
  | githd_viewLineHistory f => viewLineHistory svc f
  | githd_viewAllHistory => viewAllHistory svc
  | githd_viewBranchHistory c => viewBranchHistory svc c
  | githd_viewAuthorHistory => viewAuthorHistory svc
  | githd_diffBranch => diffBranch svc
  | githd_diffFile p => diffFile svc p
  | githd_diffFolder p => diffFolder svc p
  | githd_inputRef => inputRef svc
  | githd_openCommittedFile f => openCommittedFile f
  | githd_openLineDiff c => openLineDiff c
  | githd_setExpressMode => setExpressMode
  end.

(** ** Notions used by the properties *)

(** The answer that selects the [k]-th repository: none is asked for when
    there is a single repository. *)
Definition repo_answer (svc : GitService) (k : nat) : list Answer :=
  if Nat.eqb (length (getGitRepos svc)) 1 then [] else [Pick k].

(** What repository selection shows. *)
Definition repo_prompt (svc : GitService) : list Event :=
  if Nat.eqb (length (getGitRepos svc)) 1 then []
  else [QuickPickShown
          (map (fun it => (label it, description it)) (map repo_item (getGitRepos svc)))
          "Select the git repo"].

Definition after_repo (svc : GitService) (rest : list Answer) (w : World) : World :=
  with_answers rest (with_shown (shown w ++ repo_prompt svc) w).

(** A reference that is neither [null] nor [undefined]. *)
Definition present (v : opt_string) : bool :=
  match v with
  | Str _ => true
  | _ => false
  end.

(** The label carries the mark of the current branch. *)
Definition marked (it : PickItem) : bool :=
  String.prefix ("$(check)" +:+ SpaceChar) (pi_label it).

Definition count_marked (items : list PickItem) : nat :=
  length (filter (fun it => marked it = true) items).

(** The entry of a pick list as the window displays it. *)
Definition displayed (it : PickItem) : string * string :=
  (pi_label it, pi_description it).

(** The entry of a reference without any decoration. *)
Definition plain_entry (ref : GitRef) : string * string :=
  (ref_label ref, ref_description ref).

(** Nothing was published to the files view: the model holds the same
    reference and no context object was created or changed. *)
Definition files_untouched (w w' : World) : Prop :=
  filesViewContext w' = filesViewContext w /\
  files_objects w' = files_objects w.




(** Every event in the list satisfies [P], and so do the events [m] shows. *)
Definition shows_only {A : Type} (P : Event -> Prop) (m : Async A) : Prop :=
  forall w, exists evs, shown (exec m w) = shown w ++ evs /\ Forall P evs.

(** A pick list of references whose labels are the plain ones, headed by
    the manual entry, for some repository; any other event is let
    through. *)
Definition undecorated (svc : GitService) (e : Event) : Prop :=
  match e with
  | QuickPickShown items placeHolder =>
      placeHolder = "Select the git repo" \/
      exists r, r ∈ getGitRepos svc /\
        items = displayed EnterShaPickItem :: map plain_entry (getRefs svc (Some r))
  | _ => True
  end.

(** *** The scenario of the specification *)

Definition repo0 : GitRepo := {| root := "/work/githd" |}.

Definition ref_main : GitRef :=
  {| ref_type := Head; ref_name := Some "main"; ref_commit := "aaa" |}.

Definition ref_v1 : GitRef :=
  {| ref_type := Tag; ref_name := Some "v1"; ref_commit := "bbb" |}.

Definition ann : Author := {| author_name := "Ann"; author_email := "ann@example.org" |}.

Definition service (repos : list GitRepo) (refs : list GitRef)
    (current : opt_string) : GitService :=
  {| getGitRepos := repos;
     getGitRepo := fun _ => head repos;
     getRefs := fun _ => refs;
     getCurrentBranch := fun _ => current;
     getAuthors := fun _ => [ann] |}.

Definition svc0 : GitService := service [repo0] [ref_main; ref_v1] (Str "main").

(** A tag that has the name of the current branch. *)
Definition ref_main_tag : GitRef :=
  {| ref_type := Tag; ref_name := Some "main"; ref_commit := "ccc" |}.

Definition svc_twins : GitService :=
  service [repo0] [ref_main; ref_main_tag] (Str "main").

Definition file0 : Uri :=
  {| uri_scheme := "file"; uri_path := "/work/githd/a.ts"; uri_query := "";
     uri_fsPath := "/work/githd/a.ts" |}.

(** A files context whose left reference is the empty string. *)
Definition ctx_empty_left : FilesViewContext :=
  {| f_repo := Some repo0; leftRef := Str ""; rightRef := Str "v1";
     f_specifiedPath := None |}.

Definition committed0 : GitCommittedFile :=
  {| file_uri := file0; gitRelativePath := "src/a.ts" |}.

(** A world in which nothing has been published yet. *)
Definition world (script : list Answer) : World :=
  {| filesViewContext := None; historyViewContext := None;
     files_objects := []; history_objects := [];
     loadAll := false; express := false; activeTextEditor := None;
     answers := script; shown := [] |}.

(** A world in which a history context of [repo0] is published. *)
Definition world_with_history (script : list Answer) : World :=
  {| filesViewContext := None; historyViewContext := Some 0;
     files_objects := [];
     history_objects := [history_literal (Some repo0) None None None];
     loadAll := false; express := false; activeTextEditor := None;
     answers := script; shown := [] |}.

(** *** Notions used by the further properties *)

(** Nothing of the history view has changed: the reference the model
    holds, the context objects and the flag of the view. *)
Definition history_untouched (w w' : World) : Prop :=
  historyViewContext w' = historyViewContext w /\
  history_objects w' = history_objects w /\
  loadAll w' = loadAll w.

(** The commands whose handler assigns [filesViewContext], and those
    whose handler calls [_viewHistory]. *)
Definition writes_files (c : Invocation) : bool :=
  match c with
  | githd_clear | githd_diffBranch | githd_diffFile _ | githd_diffFolder _
  | githd_inputRef => true
  | _ => false
  end.

Definition writes_history (c : Invocation) : bool :=
  match c with
  | githd_viewHistory | githd_viewFileHistory _ | githd_viewFolderHistory _
  | githd_viewLineHistory _ | githd_viewAllHistory | githd_viewBranchHistory _
  | githd_viewAuthorHistory => true
  | _ => false
  end.

(** The entry of a repository in the list of repositories. *)
Definition repo_entry (r : GitRepo) : string * string :=
  (basename (root r), root r).

(** A reader of the escapes [json_escape] writes; it is used to show that
    two strings never have the same encoding. *)
Definition hex_value (c : ascii) : nat :=
  let n := nat_of_ascii c in
  if Nat.ltb n 58 then n - 48 else n - 87.

Definition unescape_letter (d : ascii) : ascii :=
  let n := nat_of_ascii d in
  if Nat.eqb n 98 then ascii_of_nat 8
  else if Nat.eqb n 116 then ascii_of_nat 9
  else if Nat.eqb n 110 then ascii_of_nat 10
  else if Nat.eqb n 102 then ascii_of_nat 12
  else if Nat.eqb n 114 then ascii_of_nat 13
  else d.

Fixpoint json_unescape (s : string) : string :=
  match s with
  | EmptyString => ""
  | String c s1 =>
      if Ascii.eqb c backslash then
        match s1 with
        | EmptyString => ""
        | String d s2 =>
            if Ascii.eqb d "u" then
              match s2 with
              | String _ (String _ (String h1 (String h2 s3))) =>
                  String (ascii_of_nat (16 * hex_value h1 + hex_value h2))
                         (json_unescape s3)
              | _ => ""
              end
            else String (unescape_letter d) (json_unescape s2)
        end
      else String c (json_unescape s1)
  end.

(** The commands whose handler has no path to an exception. *)
Definition never_throws (c : Invocation) : bool :=
  match c with
  | githd_clear | githd_viewFileHistory _ | githd_viewFolderHistory _
  | githd_viewLineHistory _ | githd_viewAllHistory
  | githd_viewBranchHistory None | githd_diffFile _ | githd_diffFolder _
  | githd_openLineDiff _ | githd_setExpressMode => true
  | _ => false
  end.

Definition repo1 : GitRepo := {| root := "/work/other" |}.

(** Two repositories. *)
Definition svc_two : GitService :=
  service [repo0; repo1] [ref_main; ref_v1] (Str "main").

(** A world with an active editor on [file0], the cursor on line 41
    (counted from 0). *)
Definition world_with_editor (script : list Answer) : World :=
  {| filesViewContext := None; historyViewContext := None;
     files_objects := []; history_objects := [];
     loadAll := false; express := false;
     activeTextEditor := Some (file0, 41);
     answers := script; shown := [] |}.

(** A repository in a state in which the service reports no current
    branch. *)
Definition svc_detached : GitService :=
  service [repo0] [ref_main; ref_v1] Undefined.

(** ** Running the handlers *)

Arguments selectBranch : simpl never.
Arguments selectAuthor : simpl never.

(** Unfolds the monad and the window operations. *)
Ltac run :=
  cbv [then_ await_resolve mbind Async_bind mret Async_ret showQuickPick
       showInputBox showErrorMessage show update next_answer read throw
       new_files new_history publish_files set_filesViewContext
       setHistoryViewContext _viewHistory read_history write_history
       exec result].

(** The library functions and the builder on the data of the scenario. *)
Example trim_abc123 : trim "  abc123  " = "abc123".
Proof. reflexivity. Qed.

Example trim_keeps_inner_space :
  trim (String (ascii_of_nat 9) (" a b " +:+ SpaceChar)) = "a b".
Proof. reflexivity. Qed.

Example basename_examples :
  basename "/work/githd/" = "githd" /\ basename "src/a.ts" = "a.ts" /\
  basename "a.ts" = "a.ts".
Proof. repeat split. Qed.

Example toGitUri_query :
  uri_query (toGitUri file0 (Str "v1~"))
  = "{" +:+ json_string "path" +:+ ":" +:+ json_string "/work/githd/a.ts"
    +:+ "," +:+ json_string "ref" +:+ ":" +:+ json_string "v1~" +:+ "}".
Proof. reflexivity. Qed.

Example selectBranch_scenario :
  selectBranch svc0 (Some repo0) false true
  = [ {| pi_label := "$(check)" +:+ SpaceChar +:+ " main";
         pi_description := "aaa"; openShaTextBox := false |};
      {| pi_label := Js.repeat SpaceChar 4 +:+ " v1";
         pi_description := "Tag at bbb"; openShaTextBox := false |} ].
Proof. reflexivity. Qed.

Example inputRef_trims :
  current_files (exec (inputRef svc0) (world [Submit "  abc123  "]))
  = Some {| f_repo := Some repo0; leftRef := Null; rightRef := Str "abc123";
            f_specifiedPath := None |}.
Proof. reflexivity. Qed.

Lemma with_same (w : World) :
  with_answers (answers w) (with_shown (shown w ++ []) w) = w.
Proof. destruct w; unfold with_answers, with_shown; simpl. by rewrite app_nil_r. Qed.

Lemma then_selectGitRepo_chosen {B : Type} (svc : GitService) (k : nat)
    (r : GitRepo) (f : option GitRepo -> Async B) (rest : list Answer) (w : World) :
  getGitRepos svc !! k = Some r ->
  answers w = repo_answer svc k ++ rest ->
  then_ (selectGitRepo svc) f w = f (Some r) (after_repo svc rest w).
Proof.
  intros Hk Hans.
  unfold selectGitRepo, repo_answer, after_repo, repo_prompt in *.
  destruct (Nat.eqb (length (getGitRepos svc)) 0) eqn:H0.
  { apply Nat.eqb_eq, nil_length_inv in H0. by rewrite H0 in Hk. }
  destruct (Nat.eqb (length (getGitRepos svc)) 1) eqn:H1.
  - apply Nat.eqb_eq in H1.
    destruct (getGitRepos svc) as [|r0 [|? ?]]; simplify_eq/=.
    destruct k; simplify_eq/=. by rewrite with_same.
  - run. simpl. rewrite Hans. simpl.
    rewrite !list_lookup_fmap, Hk. reflexivity.
Qed.

Lemma selectBranch_lookup_ref (svc : GitService) (repo : option GitRepo)
    (mark : bool) (i : nat) (ref : GitRef) :
  getRefs svc repo !! i = Some ref ->
  selectBranch svc repo true mark !! S i
  = Some (branch_item (getCurrentBranch svc repo) mark ref).
Proof.
  intros Hi. unfold selectBranch.
  change ((EnterShaPickItem :: ?l) !! S i) with (l !! i).
  by rewrite list_lookup_fmap, Hi.
Qed.

Lemma selectBranch_lookup_sentinel (svc : GitService) (repo : option GitRepo)
    (mark : bool) :
  selectBranch svc repo true mark !! 0 = Some EnterShaPickItem.
Proof. reflexivity. Qed.

(** C1. In the diff-branch flow, when the user picks an existing ref as
    the source and then an existing ref as the target, the flow ends
    normally and the Files-Diff Context the model holds afterwards has the
    chosen repository, [leftRef] equal to the label of the first ref,
    [rightRef] equal to the label of the second and no specified path;
    the labels are the plain ones ([ref.name || ref.commit]) whatever the
    current branch is.  With labels "main" and "v1" this is the scenario
    of the specification. *)
Theorem diffBranch_publishes_picked_labels (svc : GitService) (w : World)
    (k i j : nat) (r : GitRepo) (source target : GitRef) (a b : string)
    (rest : list Answer) :
  getGitRepos svc !! k = Some r ->
  getRefs svc (Some r) !! i = Some source ->
  getRefs svc (Some r) !! j = Some target ->
  ref_label source = a ->
  ref_label target = b ->
  answers w = repo_answer svc k ++ Pick (S i) :: Pick (S j) :: rest ->
  result (diffBranch svc) w = Normal tt /\
  current_files (exec (diffBranch svc) w)
  = Some {| f_repo := Some r; leftRef := Str a; rightRef := Str b;
            f_specifiedPath := None |}.
Proof.
  intros Hk Hi Hj <- <- Hans.
  unfold result, exec, diffBranch.
  rewrite (then_selectGitRepo_chosen svc k r _ _ w Hk Hans).
  unfold _choseBranchOnPick, getRefFromQuickPickItem, after_repo. run. cbn.
  rewrite (selectBranch_lookup_ref _ _ _ _ _ Hi). cbn.
  rewrite (selectBranch_lookup_ref _ _ _ _ _ Hj). cbn.
  split; [done|].
  unfold current_files. simpl.
  rewrite lookup_app_r by done. rewrite Nat.sub_diag. simpl.
  reflexivity.
Qed.

Lemma diffBranch_main_v1 :
  result (diffBranch svc0) (world [Pick 1; Pick 2]) = Normal tt /\
  current_files (exec (diffBranch svc0) (world [Pick 1; Pick 2]))
  = Some {| f_repo := Some repo0; leftRef := Str "main"; rightRef := Str "v1";
            f_specifiedPath := None |}.
Proof.
  apply (diffBranch_publishes_picked_labels svc0 (world [Pick 1; Pick 2])
           0 0 1 repo0 ref_main ref_v1 "main" "v1" []); reflexivity.
Defined.

(** C4. In the diff-branch flow, when the user has chosen a source entry
    (a ref or the manual entry) and dismisses the list of targets, the
    flow ends normally after the message "Invalid Branch": the model holds
    the reference it held, no context object is created or changed, and
    so the files-view context is the one from before the flow. *)
Theorem diffBranch_target_dismissed (svc : GitService) (w : World)
    (k a : nat) (r : GitRepo) (source : PickItem) (rest : list Answer) :
  getGitRepos svc !! k = Some r ->
  selectBranch svc (Some r) true false !! a = Some source ->
  answers w = repo_answer svc k ++ Pick a :: Dismiss :: rest ->
  result (diffBranch svc) w = Normal tt /\
  files_untouched w (exec (diffBranch svc) w) /\
  current_files (exec (diffBranch svc) w) = current_files w /\
  historyViewContext (exec (diffBranch svc) w) = historyViewContext w /\
  history_objects (exec (diffBranch svc) w) = history_objects w /\
  last (shown (exec (diffBranch svc) w)) = Some (ErrorMessageShown "Invalid Branch").
Proof.
  intros Hk Ha Hans.
  unfold result, exec, diffBranch, files_untouched, current_files.
  rewrite (then_selectGitRepo_chosen svc k r _ _ w Hk Hans).
  unfold _choseBranchOnPick, after_repo. run. cbn.
  rewrite Ha. cbn.
  repeat split. by rewrite last_snoc.
Qed.

Lemma diffBranch_target_dismissed_scenario :
  files_untouched (world [Pick 1; Dismiss])
    (exec (diffBranch svc0) (world [Pick 1; Dismiss])).
Proof.
  apply (diffBranch_target_dismissed svc0 (world [Pick 1; Dismiss])
           0 1 repo0 (branch_item (Str "main") false ref_main) []); reflexivity.
Defined.

(** C8. With no repository, [selectGitRepo] returns [null] and not a
    promise: nothing is shown, and each command that starts by selecting
    a repository ends with nothing shown and the world as it was.  With
    exactly one repository it returns a promise that resolves to that
    repository and leaves the world, and so the log of prompts, as it
    was. *)
Theorem selectGitRepo_zero_or_one (svc : GitService) :
  (getGitRepos svc = [] ->
   selectGitRepo svc = None /\
   forall w,
     exec (viewHistory svc) w = w /\ exec (viewBranchHistory svc None) w = w /\
     exec (diffBranch svc) w = w /\ exec (inputRef svc) w = w) /\
  (forall r, getGitRepos svc = [r] ->
   exists p, selectGitRepo svc = Some p /\
             forall w, p w = (Normal (Some r), w)).
Proof.
  split.
  - intros H0.
    assert (Hsel : selectGitRepo svc = None) by (unfold selectGitRepo; by rewrite H0).
    split; [done|]. intros w.
    unfold viewHistory, viewBranchHistory, diffBranch, inputRef.
    rewrite Hsel. by run.
  - intros r H1. exists (mret (Some r)). split.
    + unfold selectGitRepo. by rewrite H1.
    + done.
Qed.

Lemma selectGitRepo_zero_or_one_scenario :
  selectGitRepo (service [] [] Undefined) = None /\
  exists p, selectGitRepo svc0 = Some p /\
            forall w, p w = (Normal (Some repo0), w).
Proof.
  split.
  - apply (selectGitRepo_zero_or_one (service [] [] Undefined)). reflexivity.
  - apply (selectGitRepo_zero_or_one svc0). reflexivity.
Defined.

(** C9, as stated, fails: a left reference that is present but empty is
    not used as it is.  The diff-branch flow publishes such a context when
    the source is entered by hand and the empty text is submitted;
    opening a committed file then compares "v1~" with "v1" under the
    title of the right reference alone. *)
Lemma openCommittedFile_empty_leftRef :
  current_files (exec (diffBranch svc0) (world [Pick 0; Pick 2; Submit ""]))
  = Some ctx_empty_left /\
  present (leftRef ctx_empty_left) = true /\
  shown_by (openCommittedFile committed0)
    (exec (diffBranch svc0) (world [Pick 0; Pick 2; Submit ""]))
  = [DiffOpened (toGitUri file0 (Str "v1~")) (toGitUri file0 (Str "v1"))
       "v1 | a.ts"] /\
  toGitUri file0 (Str "v1~") <> toGitUri file0 (leftRef ctx_empty_left).
Proof. repeat split; try reflexivity. discriminate. Qed.

(** C9, amended. When a committed file is opened from a context whose
    [leftRef] is absent ([null] or [undefined]) or the empty string, the
    left side of the diff is [rightRef + "~"] and the title starts with
    the right reference alone; when [leftRef] is a string that is not
    empty, it is the left side as it is and the title starts with both
    references, separated by " .. ".  The right side is [rightRef] in
    both cases. *)
Theorem openCommittedFile_sides (file : GitCommittedFile) (w : World)
    (c : FilesViewContext) :
  current_files w = Some c ->
  (leftRef c = Null \/ leftRef c = Undefined \/ leftRef c = Str "" ->
   shown_by (openCommittedFile file) w
   = [DiffOpened
        (toGitUri (file_uri file) (Str (to_string (rightRef c) +:+ "~")))
        (toGitUri (file_uri file) (rightRef c))
        (to_string (rightRef c) +:+ " | " +:+ basename (gitRelativePath file))]) /\
  (forall l, leftRef c = Str l -> l <> "" ->
   shown_by (openCommittedFile file) w
   = [DiffOpened
        (toGitUri (file_uri file) (Str l))
        (toGitUri (file_uri file) (rightRef c))
        ((l +:+ " .. " +:+ to_string (rightRef c))
           +:+ " | " +:+ basename (gitRelativePath file))]).
Proof.
  intros Hc.
  assert (Hrun : forall e, (let '(lref, rref, title) := diff_sides c in
                            DiffOpened (toGitUri (file_uri file) lref)
                              (toGitUri (file_uri file) rref)
                              (to_string title +:+ " | " +:+
                               basename (gitRelativePath file))) = e ->
                 shown_by (openCommittedFile file) w = [e]).
  { intros e <-. unfold shown_by, openCommittedFile. run. rewrite Hc.
    destruct (diff_sides c) as [[lref rref] title]. cbn.
    by rewrite drop_app_length. }
  split.
  - intros Habsent. apply Hrun. unfold diff_sides.
    by destruct Habsent as [-> | [-> | ->]].
  - intros l Hl Hne. apply Hrun. unfold diff_sides. rewrite Hl. cbn.
    destruct (String.eqb_spec l ""); [done|reflexivity].
Qed.

Lemma openCommittedFile_sides_scenario :
  shown_by (openCommittedFile committed0)
    (exec (diffBranch svc0) (world [Pick 1; Pick 2]))
  = [DiffOpened (toGitUri file0 (Str "main")) (toGitUri file0 (Str "v1"))
       "main .. v1 | a.ts"].
Proof.
  apply (openCommittedFile_sides committed0
           (exec (diffBranch svc0) (world [Pick 1; Pick 2]))
           {| f_repo := Some repo0; leftRef := Str "main"; rightRef := Str "v1";
              f_specifiedPath := None |});
    [reflexivity | reflexivity | discriminate].
Defined.

(** *** Marking the current branch *)

Lemma prefix_append (p s : string) : String.prefix p (p +:+ s) = true.
Proof.
  induction p as [|c p IH]; simpl.
  - by destruct s.
  - destruct (ascii_dec c c); [exact IH | done].
Qed.

Lemma marked_branch_item (current : opt_string) (ref : GitRef) :
  marked (branch_item current true ref) = strict_eq (ref_label ref) current.
Proof.
  unfold marked, branch_item. cbn [pi_label].
  destruct (strict_eq (ref_label ref) current).
  - apply prefix_append.
  - reflexivity.
Qed.

Lemma count_marked_items (current : opt_string) (refs : list GitRef) :
  count_marked (map (branch_item current true) refs)
  = length (filter (fun ref => strict_eq (ref_label ref) current = true) refs).
Proof.
  unfold count_marked.
  induction refs as [|ref refs IH]; [done|].
  pose proof (marked_branch_item current ref) as Hm.
  cbn [map]. rewrite !filter_cons.
  destruct (strict_eq (ref_label ref) current) eqn:Heq.
  - rewrite !decide_True by done. cbn [length]. by rewrite IH.
  - rewrite !decide_False by congruence. exact IH.
Qed.

(** C7, as stated, fails: a branch and a tag may carry the same name.
    With the branch "main" checked out and a tag "main" beside it, some
    reference has the name of the current branch and yet two entries are
    marked, not the first one alone. *)
Lemma twin_names_both_marked :
  (exists ref, ref ∈ getRefs svc_twins (Some repo0) /\ ref_name ref = Some "main") /\
  getCurrentBranch svc_twins (Some repo0) = Str "main" /\
  count_marked (selectBranch svc_twins (Some repo0) false true) = 2 /\
  marked <$> selectBranch svc_twins (Some repo0) false true = [true; true].
Proof.
  repeat split; try reflexivity.
  exists ref_main. split; [|reflexivity]. apply list_elem_of_here.
Qed.

(** C7, amended. In a list built with [selectCurRef] set, the entry of a
    reference is marked exactly when the label of the reference (its
    name, or its commit when the name is missing or empty) is the current
    branch name, and the manual entry is never marked.  So the number of
    marked entries is the number of references with that label: none when
    no label matches (a detached state included), exactly one when
    exactly one reference has the label.  The builder is a total
    function: no error is raised. *)
Theorem marked_iff_label_is_current (svc : GitService) (repo : option GitRepo)
    (allowEnterSha : bool) :
  let current := getCurrentBranch svc repo in
  let refs := getRefs svc repo in
  let matching := filter (fun ref => strict_eq (ref_label ref) current = true) refs in
  (forall ref, marked (branch_item current true ref) = true <->
               current = Str (ref_label ref)) /\
  marked EnterShaPickItem = false /\
  count_marked (selectBranch svc repo allowEnterSha true) = length matching /\
  (count_marked (selectBranch svc repo allowEnterSha true) = 0 <->
   forall ref, ref ∈ refs -> current <> Str (ref_label ref)).
Proof.
  intros current refs matching.
  assert (Hmatch : forall ref, strict_eq (ref_label ref) current = true <->
                               current = Str (ref_label ref)).
  { intros ref. unfold strict_eq. destruct current as [| |s]; try done.
    rewrite String.eqb_eq. split; congruence. }
  assert (Hcount : count_marked (selectBranch svc repo allowEnterSha true)
                   = length matching).
  { unfold selectBranch. fold current refs.
    destruct allowEnterSha; [|apply count_marked_items].
    unfold count_marked. rewrite filter_cons.
    change (marked EnterShaPickItem) with false.
    rewrite decide_False by done. apply count_marked_items. }
  repeat split.
  - rewrite marked_branch_item. apply Hmatch.
  - rewrite marked_branch_item. apply Hmatch.
  - exact Hcount.
  - rewrite Hcount. intros Hlen ref Hin Heq.
    apply nil_length_inv in Hlen.
    assert (Hfil : ref ∈ matching).
    { apply list_elem_of_filter. split; [by apply Hmatch | done]. }
    rewrite Hlen in Hfil. by apply elem_of_nil in Hfil.
  - rewrite Hcount. intros Hnone.
    destruct matching as [|ref rest] eqn:Hm; [done|].
    assert (Hin : ref ∈ matching) by (rewrite Hm; apply list_elem_of_here).
    apply list_elem_of_filter in Hin as [Heq Hin].
    apply Hmatch in Heq. by destruct (Hnone ref Hin).
Qed.

(** *** Manual entry *)

(** C2 at its failing inputs.  The text entered after the manual entry
    is not trimmed: the round resolves to the text as typed and the
    diff-file flow publishes it as [leftRef] with its spaces, whereas the
    input-ref flow trims the text it is given.  An empty text entered in
    the diff-branch flow does not end the flow either: it is published as
    [leftRef], whereas the diff-file flow stops on it. *)
Theorem manual_entry_not_trimmed :
  result (getRefFromQuickPickItem EnterShaPickItem
            "Input a ref(sha1) as a source branch")
         (world [Submit "  abc123  "])
  = Normal (Str "  abc123  ") /\
  leftRef <$> current_files
                (exec (diffFile svc0 (Some file0))
                      (world [Pick 0; Submit "  abc123  "]))
  = Some (Str "  abc123  ") /\
  Str "  abc123  " <> Str "abc123" /\
  rightRef <$> current_files
                 (exec (inputRef svc0) (world [Submit "  abc123  "]))
  = Some (Str "abc123") /\
  current_files (exec (diffBranch svc0) (world [Pick 0; Pick 2; Submit ""]))
  = Some {| f_repo := Some repo0; leftRef := Str ""; rightRef := Str "v1";
            f_specifiedPath := None |} /\
  files_untouched (world [Pick 0; Submit ""])
    (exec (diffFile svc0 (Some file0)) (world [Pick 0; Submit ""])).
Proof. repeat split; try reflexivity. discriminate. Qed.

(** What the round does for any text: after the manual entry is selected,
    the text submitted is the resolved value exactly as submitted.  In
    the diff-file flow a text that is not empty is published as
    [leftRef] as it is, beside the current branch as [rightRef]; the
    empty text ends the flow with nothing published. *)
Theorem manual_entry_resolved_verbatim (svc : GitService) (title s : string)
    (sp : Uri) (rest : list Answer) (w w' : World) :
  answers w = Submit s :: rest ->
  answers w' = Pick 0 :: Submit s :: rest ->
  result (getRefFromQuickPickItem EnterShaPickItem title) w = Normal (Str s) /\
  (s <> "" ->
   current_files (exec (diffFile svc (Some sp)) w')
   = Some {| f_repo := getGitRepo svc sp; leftRef := Str s;
             rightRef := getCurrentBranch svc (getGitRepo svc sp);
             f_specifiedPath := Some sp |}) /\
  (s = "" -> files_untouched w' (exec (diffFile svc (Some sp)) w')).
Proof.
  intros Hw Hw'. split; [|split].
  - unfold result, getRefFromQuickPickItem. cbn [openShaTextBox EnterShaPickItem].
    run. cbn. by rewrite Hw.
  - intros Hs. unfold exec, diffFile, getRefFromQuickPickItem, current_files.
    run. cbn. rewrite Hw'. cbn. rewrite selectBranch_lookup_sentinel. cbn.
    destruct (String.eqb_spec s ""); [done|]. cbn.
    rewrite lookup_app_r by done. by rewrite Nat.sub_diag.
  - intros ->. unfold exec, diffFile, getRefFromQuickPickItem, files_untouched.
    run. cbn. rewrite Hw'. cbn. rewrite selectBranch_lookup_sentinel. by cbn.
Qed.

Lemma manual_entry_resolved_verbatim_scenario :
  result (getRefFromQuickPickItem EnterShaPickItem "Input a ref(sha1)")
         (world [Submit "  abc123  "])
  = Normal (Str "  abc123  ") /\
  files_untouched (world [Pick 0; Submit ""])
    (exec (diffFile svc0 (Some file0)) (world [Pick 0; Submit ""])).
Proof.
  split.
  - apply (manual_entry_resolved_verbatim svc0 "Input a ref(sha1)" "  abc123  "
             file0 [] (world [Submit "  abc123  "])
             (world [Pick 0; Submit "  abc123  "])); reflexivity.
  - apply (manual_entry_resolved_verbatim svc0 "Input a ref(sha1)" ""
             file0 [] (world [Submit ""]) (world [Pick 0; Submit ""]));
      reflexivity.
Defined.

(** *** Dismissed prompts *)

(** C6 at its failing inputs.  In the input-ref flow a dismissed text
    prompt resolves to [undefined], on which [trim] is called: the flow
    ends with a [TypeError] (and publishes nothing).  In the diff-branch
    flow a dismissed text prompt for the target is not checked either:
    the flow publishes a context whose [rightRef] is [undefined]. *)
Theorem dismissed_text_prompt_not_silent :
  result (inputRef svc0) (world [Dismiss])
  = Thrown (TypeError "Cannot read properties of undefined (reading 'trim')") /\
  files_untouched (world [Dismiss]) (exec (inputRef svc0) (world [Dismiss])) /\
  result (diffBranch svc0) (world [Pick 1; Pick 0; Dismiss]) = Normal tt /\
  current_files (exec (diffBranch svc0) (world [Pick 1; Pick 0; Dismiss]))
  = Some {| f_repo := Some repo0; leftRef := Str "main"; rightRef := Undefined;
            f_specifiedPath := None |} /\
  current_files (world [Pick 1; Pick 0; Dismiss]) = None.
Proof. repeat split. Qed.

(** *** What the diff-branch flow shows *)

Lemma selectBranch_plain (svc : GitService) (repo : option GitRepo) :
  map (fun it : PickItem => (label it, description it))
      (selectBranch svc repo true false)
  = displayed EnterShaPickItem :: map plain_entry (getRefs svc repo).
Proof.
  unfold selectBranch. cbn [map]. f_equal.
  rewrite map_map. reflexivity.
Qed.

Lemma repo_item_lookup (repos : list GitRepo) (i : nat) (it : RepoPickItem) :
  map repo_item repos !! i = Some it -> repo it ∈ repos.
Proof.
  rewrite list_lookup_fmap. intros H.
  destruct (repos !! i) as [r|] eqn:Hr; simplify_eq/=.
  by eapply list_elem_of_lookup_2.
Qed.

(** Case analysis on what the user answers and on what the handlers
    branch on. *)
Ltac crunch :=
  repeat (cbn;
    match goal with
    | |- context [match answers ?w with _ => _ end] =>
        destruct (answers w) as [|[?|?|] ?]
    | |- context [match ?l with [] => _ | _ :: _ => _ end] =>
        is_var l; destruct l as [|[?|?|] ?]
    | |- context [match ?l !! ?i with _ => _ end] => destruct (l !! i) eqn:?
    | |- context [if ?b then _ else _] => destruct b eqn:?
    | |- context [match ?x with _ => _ end] =>
        let T := type of x in
        lazymatch T with
        | option _ => destruct x eqn:?
        | opt_string => destruct x eqn:?
        | (Uri * nat)%type => destruct x
        end
    end);
  cbn.

Lemma diffBranch_shows_undecorated (svc : GitService) :
  shows_only (undecorated svc) (diffBranch svc).
Proof.
  intros w.
  unfold diffBranch, selectGitRepo, _choseBranchOnPick, getRefFromQuickPickItem.
  run. crunch.
  all: rewrite <- ?app_assoc.
  all: eexists; (split; [first [reflexivity | symmetry; apply app_nil_r]|]).
  all: repeat (apply Forall_cons; split); try apply Forall_nil.
  all: try exact I.
  all: try (by left).
  all: right; eexists;
    (split; [first [eapply list_elem_of_lookup_2; eassumption
                   | eapply repo_item_lookup; eassumption]
            | apply selectBranch_plain]).
Qed.

(** C10. The branch-picking helper builds its list without the mark of
    the current branch whatever its fourth argument is, and so, however
    the user answers, every list the diff-branch flow shows is either the
    list of repositories or, for one of the repositories, the manual
    entry followed by one entry per reference with the plain label
    ([ref.name || ref.commit]) and the description of the reference. *)
Theorem diffBranch_lists_unmarked (svc : GitService) :
  (forall r placeholder allowEnterSha defaultRef,
     _choseBranchOnPick svc r placeholder allowEnterSha defaultRef
     = showQuickPick (selectBranch svc (Some r) allowEnterSha false) placeholder) /\
  (forall w items placeHolder,
     QuickPickShown items placeHolder ∈ shown_by (diffBranch svc) w ->
     placeHolder = "Select the git repo" \/
     exists r, r ∈ getGitRepos svc /\
       items = displayed EnterShaPickItem :: map plain_entry (getRefs svc (Some r))).
Proof.
  split; [reflexivity|].
  intros w items placeHolder Hin.
  destruct (diffBranch_shows_undecorated svc w) as (evs & Hshown & Hall).
  unfold shown_by in Hin. rewrite Hshown, drop_app_length in Hin.
  rewrite Forall_forall in Hall. exact (Hall _ Hin).
Qed.

(** In the scenario the two rounds show the same undecorated list, while
    the builder with [selectCurRef] set would have marked "main". *)
Example diffBranch_scenario_lists :
  shown_by (diffBranch svc0) (world [Pick 1; Pick 2])
  = [QuickPickShown
       [("Enter commit SHA", ""); ("main", "aaa"); ("v1", "Tag at bbb")]
       "Select source branch to compare (/work/githd)";
     QuickPickShown
       [("Enter commit SHA", ""); ("main", "aaa"); ("v1", "Tag at bbb")]
       "Select target branch to compare with main (/work/githd)"] /\
  marked <$> selectBranch svc0 (Some repo0) true true = [false; true; false].
Proof. split; reflexivity. Qed.

(** *** Context objects *)

Ltac unfold_handlers :=
  unfold method, clear, viewHistory, viewFolderHistory, viewFileHistory,
    viewLineHistory, viewAllHistory, viewBranchHistory, viewAuthorHistory,
    diffBranch, diffFolder, diffFile, inputRef, openCommittedFile,
    openLineDiff, setExpressMode, selectGitRepo, _choseBranchOnPick,
    getRefFromQuickPickItem, root_of, trim_of, diff_sides.







(** *** The right reference of a published context *)

(** C3, as stated, fails: [clear] publishes a context whose [rightRef] is
    [null], and the publication succeeds.  The diff-file flow publishes
    the current branch name as the service reports it, without a check:
    when the service reports none, the published [rightRef] is absent
    too. *)
Lemma rightRef_absent_after_clear_or_without_branch :
  result clear (world []) = Normal tt /\
  current_files (exec clear (world []))
  = Some {| f_repo := None; leftRef := Null; rightRef := Null;
            f_specifiedPath := None |} /\
  present Null = false /\
  current_files (exec (diffFile svc_detached (Some file0)) (world [Pick 1]))
  = Some {| f_repo := Some repo0; leftRef := Str "main"; rightRef := Undefined;
            f_specifiedPath := Some file0 |} /\
  present Undefined = false.
Proof. repeat split. Qed.

(** C3, amended.  [clear] publishes, as it is meant to, a context whose
    four fields are [null], [rightRef] among them.  Every other flow that
    publishes a files context publishes a [rightRef] that is present, on
    these conditions.  The input-ref flow: none; it publishes nothing (no
    repository, or the prompt dismissed) or the trimmed text, with
    [leftRef] [null].  The diff-file flow: the service reports a current
    branch for the repository of the path; the flow publishes that name
    as it is.  The diff-branch flow: the target is a ref picked from the
    list, whose label is published, or the target is entered by hand and
    the text is submitted, and that text is published, whatever the
    source is. *)
Theorem published_rightRef (svc : GitService) :
  (forall w,
     current_files (exec clear w)
     = Some {| f_repo := None; leftRef := Null; rightRef := Null;
               f_specifiedPath := None |}) /\
  (forall w,
     files_untouched w (exec (inputRef svc) w) \/
     exists r s c,
       current_files (exec (inputRef svc) w) = Some c /\
       c = {| f_repo := Some r; leftRef := Null; rightRef := Str (trim s);
              f_specifiedPath := None |} /\
       present (rightRef c) = true) /\
  (forall sp w,
     files_untouched w (exec (diffFile svc sp) w) \/
     exists u c,
       sp = Some u /\
       current_files (exec (diffFile svc sp) w) = Some c /\
       f_repo c = getGitRepo svc u /\ f_specifiedPath c = Some u /\
       rightRef c = getCurrentBranch svc (getGitRepo svc u) /\
       (present (getCurrentBranch svc (getGitRepo svc u)) = true ->
        present (rightRef c) = true)) /\
  (forall w k r rest,
     getGitRepos svc !! k = Some r ->
     (forall a j source target,
        selectBranch svc (Some r) true false !! a = Some source ->
        getRefs svc (Some r) !! j = Some target ->
        answers w = repo_answer svc k ++ Pick a :: Pick (S j) :: rest ->
        exists c,
          current_files (exec (diffBranch svc) w) = Some c /\
          f_repo c = Some r /\ f_specifiedPath c = None /\
          rightRef c = Str (ref_label target) /\ present (rightRef c) = true) /\
     (forall i source b,
        getRefs svc (Some r) !! i = Some source ->
        answers w = repo_answer svc k ++ Pick (S i) :: Pick 0 :: Submit b :: rest ->
        exists c,
          current_files (exec (diffBranch svc) w) = Some c /\
          f_repo c = Some r /\ f_specifiedPath c = None /\
          rightRef c = Str b /\ present (rightRef c) = true) /\
     (forall x b,
        answers w = repo_answer svc k ++ Pick 0 :: Pick 0 :: x :: Submit b :: rest ->
        exists c,
          current_files (exec (diffBranch svc) w) = Some c /\
          f_repo c = Some r /\ f_specifiedPath c = None /\
          rightRef c = Str b /\ present (rightRef c) = true)).
Proof.
  split; [|split; [|split]].
  - intros w. unfold current_files, clear. run. cbn.
    by rewrite list_lookup_middle.
  - intros w. unfold_handlers. run. crunch.
    all: first [ by left
               | right; do 3 eexists; unfold current_files; cbn;
                 rewrite list_lookup_middle by done; by repeat split ].
  - intros sp w. unfold_handlers. run. crunch.
    all: first [ by left
               | right; do 2 eexists; split; [reflexivity|];
                 unfold current_files; cbn;
                 rewrite list_lookup_middle by done; by repeat split ].
  - intros w k r rest Hk. split; [|split].
    + intros a j source target Ha Hj Hans.
      unfold current_files, exec, diffBranch.
      rewrite (then_selectGitRepo_chosen svc k r _ _ w Hk Hans).
      unfold _choseBranchOnPick, getRefFromQuickPickItem, after_repo. run. cbn.
      rewrite Ha. cbn.
      rewrite (selectBranch_lookup_ref _ _ _ _ _ Hj). cbn.
      crunch.
      all: eexists; rewrite list_lookup_middle by done; by repeat split.
    + intros i source b Hi Hans.
      unfold current_files, exec, diffBranch.
      rewrite (then_selectGitRepo_chosen svc k r _ _ w Hk Hans).
      unfold _choseBranchOnPick, getRefFromQuickPickItem, after_repo. run. cbn.
      rewrite (selectBranch_lookup_ref _ _ _ _ _ Hi). cbn.
      rewrite selectBranch_lookup_sentinel. cbn.
      eexists. rewrite list_lookup_middle by done. by repeat split.
    + intros x b Hans.
      unfold current_files, exec, diffBranch.
      rewrite (then_selectGitRepo_chosen svc k r _ _ w Hk Hans).
      unfold _choseBranchOnPick, getRefFromQuickPickItem, after_repo. run. cbn.
      rewrite selectBranch_lookup_sentinel. cbn.
      rewrite selectBranch_lookup_sentinel. cbn.
      destruct x; cbn.
      all: eexists; rewrite list_lookup_middle by done; by repeat split.
Qed.

Lemma published_rightRef_scenario :
  (exists c,
     current_files (exec (diffBranch svc0) (world [Pick 0; Pick 2; Submit "abc123"]))
     = Some c /\
     f_repo c = Some repo0 /\ f_specifiedPath c = None /\
     rightRef c = Str "v1" /\ present (rightRef c) = true) /\
  (exists c,
     current_files (exec (diffBranch svc0) (world [Pick 1; Pick 0; Submit "HEAD~2"]))
     = Some c /\
     f_repo c = Some repo0 /\ f_specifiedPath c = None /\
     rightRef c = Str "HEAD~2" /\ present (rightRef c) = true) /\
  (exists c,
     current_files
       (exec (diffBranch svc0) (world [Pick 0; Pick 0; Dismiss; Submit "HEAD~2"]))
     = Some c /\
     f_repo c = Some repo0 /\ f_specifiedPath c = None /\
     rightRef c = Str "HEAD~2" /\ present (rightRef c) = true).
Proof.
  split; [|split].
  - destruct (published_rightRef svc0) as (_ & _ & _ & H).
    destruct (H (world [Pick 0; Pick 2; Submit "abc123"]) 0 repo0
                [Submit "abc123"] eq_refl) as (Hpick & _ & _).
    apply (Hpick 0 1 EnterShaPickItem ref_v1); reflexivity.
  - destruct (published_rightRef svc0) as (_ & _ & _ & H).
    destruct (H (world [Pick 1; Pick 0; Submit "HEAD~2"]) 0 repo0
                [] eq_refl) as (_ & Htyped & _).
    apply (Htyped 0 ref_main "HEAD~2"); reflexivity.
  - destruct (published_rightRef svc0) as (_ & _ & _ & H).
    destruct (H (world [Pick 0; Pick 0; Dismiss; Submit "HEAD~2"]) 0 repo0
                [] eq_refl) as (_ & _ & Hboth).
    apply (Hboth Dismiss "HEAD~2"); reflexivity.
Defined.

(** ** Further properties of the helpers and the handlers *)

(** *** Selecting a repository *)

(** X1. Whenever [selectGitRepo] returns a promise, the promise resolves
    (it never throws) to [null] or to a repository of the list of the
    service; it shows nothing, or once the list with one entry per
    repository (base name of the root, root) under "Select the git repo";
    it leaves both views as they were.  With two repositories or more,
    picking the [k]-th entry resolves to the [k]-th repository and
    dismissing the list resolves to [null]. *)
Theorem selectGitRepo_resolves_listed (svc : GitService) (p : Async (option GitRepo))
    (w : World) :
  selectGitRepo svc = Some p ->
  (exists res, result p w = Normal res /\
     (res = None \/ exists r, res = Some r /\ r ∈ getGitRepos svc)) /\
  (shown_by p w = [] \/
   shown_by p w
   = [QuickPickShown (map repo_entry (getGitRepos svc)) "Select the git repo"]) /\
  files_untouched w (exec p w) /\ history_untouched w (exec p w) /\
  (2 <= length (getGitRepos svc) ->
   (forall k rest, answers w = Pick k :: rest ->
                   result p w = Normal (getGitRepos svc !! k)) /\
   (forall rest, answers w = Dismiss :: rest -> result p w = Normal None)).
Proof.
  unfold selectGitRepo.
  destruct (Nat.eqb (length (getGitRepos svc)) 0) eqn:H0; [done|].
  destruct (Nat.eqb (length (getGitRepos svc)) 1) eqn:H1;
    intros Hp; injection Hp as <-.
  - apply Nat.eqb_eq in H1. repeat split; try (by left); try lia.
    run. destruct (getGitRepos svc !! 0) as [r|] eqn:Hr.
    + exists (Some r). split; [done|]. right. exists r. split; [done|].
      by eapply list_elem_of_lookup_2.
    + exists None. split; [done|]. by left.
    + unfold shown_by. run. cbn. left. apply drop_all.
  - split; [|split; [|split; [|split]]].
    + run. cbn.
      destruct (answers w) as [|[k| |] rest]; cbn; try (eexists; split; [done|by left]).
      destruct (map repo_item (getGitRepos svc) !! k) as [it|] eqn:Hit; cbn.
      * exists (Some (repo it)). split; [done|]. right. eexists. split; [done|].
        by eapply repo_item_lookup.
      * exists None. split; [done|]. by left.
    + right. unfold shown_by. run. cbn.
      destruct (answers w) as [|[k| |] rest]; cbn; rewrite drop_app_length;
        by rewrite map_map.
    + run. cbn. by destruct (answers w) as [|[k| |] rest].
    + run. cbn. by destruct (answers w) as [|[k| |] rest].
    + intros _. split.
      * intros k rest Hans. run. cbn. rewrite Hans. cbn.
        rewrite list_lookup_fmap. by destruct (getGitRepos svc !! k).
      * intros rest Hans. run. cbn. by rewrite Hans.
Qed.

Lemma selectGitRepo_two_repositories :
  exists p, selectGitRepo svc_two = Some p /\
    result p (world [Pick 1]) = Normal (Some repo1).
Proof.
  eexists. split; [reflexivity|].
  edestruct (selectGitRepo_resolves_listed svc_two _ (world [Pick 1]) eq_refl)
    as (_ & _ & _ & _ & H).
  destruct H as [H _]; [cbn; lia|].
  exact (H 1 [] eq_refl).
Defined.

(** *** The pick list of references *)

Lemma string_length_append (a b : string) :
  String.length (a +:+ b) = String.length a + String.length b.
Proof. induction a as [|c a IH]; simpl; [done | by rewrite IH]. Qed.

(** X2. In a list built by [selectBranch], whatever its flags, an entry
    opens the text box exactly when manual entry is allowed and the entry
    is the first one; every other entry resolves to its own label without
    any prompt and without using up an answer, also when a reference
    happens to be called "Enter commit SHA". *)
Theorem only_manual_entry_opens_text_box (svc : GitService) (repo : option GitRepo)
    (allowEnterSha selectCurRef : bool) (i : nat) (it : PickItem) :
  selectBranch svc repo allowEnterSha selectCurRef !! i = Some it ->
  (openShaTextBox it = true <-> allowEnterSha = true /\ i = 0) /\
  (openShaTextBox it = false ->
   forall title w,
     getRefFromQuickPickItem it title w = (Normal (Str (pi_label it)), w)).
Proof.
  intros Hit.
  assert (Hopen : openShaTextBox it = true <-> allowEnterSha = true /\ i = 0).
  { unfold selectBranch in Hit.
    destruct allowEnterSha; [destruct i as [|i]|].
    - change (Some EnterShaPickItem = Some it) in Hit. by simplify_eq.
    - change (map (branch_item (getCurrentBranch svc repo) selectCurRef)
                  (getRefs svc repo) !! i = Some it) in Hit.
      rewrite list_lookup_fmap in Hit.
      destruct (getRefs svc repo !! i); simplify_eq/=. split; [done|]. by intros [_ ?].
    - change (map (branch_item (getCurrentBranch svc repo) selectCurRef)
                  (getRefs svc repo) !! i = Some it) in Hit.
      rewrite list_lookup_fmap in Hit.
      destruct (getRefs svc repo !! i); simplify_eq/=. split; [done|]. by intros [? _]. }
  split; [exact Hopen|].
  intros Hclosed title w. unfold getRefFromQuickPickItem. by rewrite Hclosed.
Qed.

Lemma reference_called_like_manual_entry :
  getRefFromQuickPickItem
    {| pi_label := "Enter commit SHA"; pi_description := "aaa";
       openShaTextBox := false |} "Input a ref(sha1)" (world [Submit "abc"])
  = (Normal (Str "Enter commit SHA"), world [Submit "abc"]).
Proof.
  apply (only_manual_entry_opens_text_box
           (service [repo0]
              [{| ref_type := Head; ref_name := Some "Enter commit SHA";
                  ref_commit := "aaa" |}] (Str "main"))
           (Some repo0) true false 1); reflexivity.
Defined.

(** X3. With [selectCurRef] set, the label of the entry of a reference is
    one of the two prefixes, a space and the plain label
    ([ref.name || ref.commit]); it is therefore never the plain label
    itself, which is what a pick resolves to. *)
Theorem decorated_label_is_not_the_ref (current : opt_string) (ref : GitRef) :
  (exists prefix,
     (prefix = "$(check)" +:+ SpaceChar \/ prefix = Js.repeat SpaceChar 4) /\
     pi_label (branch_item current true ref) = prefix +:+ " " +:+ ref_label ref) /\
  pi_label (branch_item current true ref) <> ref_label ref /\
  pi_label (branch_item current false ref) = ref_label ref.
Proof.
  split; [|split; [|reflexivity]].
  - unfold branch_item. cbn [pi_label].
    destruct (strict_eq (ref_label ref) current); eexists; (split; [|reflexivity]);
      [by left | by right].
  - intros Heq. apply (f_equal String.length) in Heq.
    unfold branch_item in Heq. cbn [pi_label] in Heq.
    rewrite !string_length_append in Heq.
    destruct (strict_eq (ref_label ref) current); cbn in Heq; lia.
Qed.

(** *** The diff-branch flow *)

(** X4. In the diff-branch flow, when the list of sources is dismissed,
    the flow shows the list of sources and then "Invalid Branch" and
    stops: the list of targets is never shown, the remaining answers are
    not used, nothing is published and the history view is as it was. *)
Theorem diffBranch_source_dismissed (svc : GitService) (w : World) (k : nat)
    (r : GitRepo) (rest : list Answer) :
  getGitRepos svc !! k = Some r ->
  answers w = repo_answer svc k ++ Dismiss :: rest ->
  result (diffBranch svc) w = Normal tt /\
  shown_by (diffBranch svc) w
  = repo_prompt svc ++
    [QuickPickShown
       (displayed EnterShaPickItem :: map plain_entry (getRefs svc (Some r)))
       ("Select source branch to compare (" +:+ root r +:+ ")");
     ErrorMessageShown "Invalid Branch"] /\
  answers (exec (diffBranch svc) w) = rest /\
  files_untouched w (exec (diffBranch svc) w) /\
  history_untouched w (exec (diffBranch svc) w).
Proof.
  intros Hk Hans.
  unfold result, shown_by, exec, diffBranch, files_untouched, history_untouched.
  rewrite (then_selectGitRepo_chosen svc k r _ _ w Hk Hans).
  unfold _choseBranchOnPick, after_repo. run. cbn.
  repeat split.
  rewrite <- !app_assoc, drop_app_length, selectBranch_plain. reflexivity.
Qed.

Lemma diffBranch_source_dismissed_scenario :
  shown_by (diffBranch svc0) (world [Dismiss; Pick 2])
  = [QuickPickShown
       [("Enter commit SHA", ""); ("main", "aaa"); ("v1", "Tag at bbb")]
       "Select source branch to compare (/work/githd)";
     ErrorMessageShown "Invalid Branch"] /\
  answers (exec (diffBranch svc0) (world [Dismiss; Pick 2])) = [Pick 2].
Proof.
  destruct (diffBranch_source_dismissed svc0 (world [Dismiss; Pick 2]) 0 repo0
              [Pick 2] eq_refl eq_refl) as (_ & Hshown & Hrest & _).
  split; [exact Hshown | exact Hrest].
Defined.

(** X5. However the user answers, the diff-branch flow leaves the history
    view and the express flag as they were, and it either publishes
    nothing or creates exactly one context object, for a repository of
    the service and without a specified path, and makes the model hold
    it. *)
Theorem diffBranch_publishes_at_most_once (svc : GitService) (w : World) :
  history_untouched w (exec (diffBranch svc) w) /\
  express (exec (diffBranch svc) w) = express w /\
  (files_untouched w (exec (diffBranch svc) w) \/
   exists r lref rref,
     r ∈ getGitRepos svc /\
     files_objects (exec (diffBranch svc) w)
     = files_objects w ++
       [{| f_repo := Some r; leftRef := lref; rightRef := rref;
           f_specifiedPath := None |}] /\
     filesViewContext (exec (diffBranch svc) w) = Some (length (files_objects w))).
Proof.
  unfold_handlers. unfold history_untouched, files_untouched. run. crunch.
  all: repeat split.
  all: first [ by left
             | right; do 3 eexists;
               (split; [first [eapply list_elem_of_lookup_2; eassumption
                              | eapply repo_item_lookup; eassumption]
                       | split; reflexivity]) ].
Qed.

(** *** The two views *)

(** X6. The commands keep the two views apart: a command whose handler
    does not assign [filesViewContext] leaves the files view untouched
    (reference and objects), and a command whose handler does not call
    [_viewHistory] leaves the history view untouched (reference, objects
    and [loadAll]), however the user answers. *)
Theorem views_are_separate (svc : GitService) (c : Invocation) (w : World) :
  (writes_files c = false -> files_untouched w (exec (method svc c) w)) /\
  (writes_history c = false -> history_untouched w (exec (method svc c) w)).
Proof.
  unfold files_untouched, history_untouched.
  split; intros Hc; destruct c; try discriminate Hc;
    unfold_handlers; run; crunch; by repeat split.
Qed.

(** X7. Toggling the express mode twice gives back the world exactly as
    it was, and one toggle negates the flag. *)
Theorem setExpressMode_involution (w : World) :
  exec setExpressMode (exec setExpressMode w) = w /\
  express (exec setExpressMode w) = negb (express w) /\
  result setExpressMode w = Normal tt.
Proof.
  unfold setExpressMode. run. cbn. repeat split.
  destruct w as [? ? ? ? ? e ? ? ?]. unfold with_express. cbn.
  by rewrite negb_involutive.
Qed.

(** *** The history commands *)

(** X8. The author-history flow started while the model holds no history
    context ends with the assertion error; nothing is shown, no answer is
    used and the world is as it was. *)
Theorem viewAuthorHistory_requires_context (svc : GitService) (w : World) :
  historyViewContext w = None ->
  result (viewAuthorHistory svc) w
  = Thrown (AssertionError "history view context should exist") /\
  exec (viewAuthorHistory svc) w = w.
Proof.
  intros Hnone. unfold viewAuthorHistory. run. cbn. by rewrite Hnone.
Qed.

Lemma viewAuthorHistory_requires_context_scenario :
  result (viewAuthorHistory svc0) (world [Pick 1])
  = Thrown (AssertionError "history view context should exist").
Proof.
  apply (viewAuthorHistory_requires_context svc0 (world [Pick 1])). reflexivity.
Defined.

(** X9. The list of authors has one entry more than the service reports
    authors: "All" with an empty description comes first, and the entry
    after position [i] is the [i]-th author, name and email.  Picking
    "All" in the author-history flow stores the empty string as the
    author of the context the model holds, keeps its other fields and
    switches [loadAll] off; dismissing the list changes neither view. *)
Theorem selectAuthor_all_first (svc : GitService) (w : World) (l : loc)
    (c : HistoryViewContext) (rest : list Answer) :
  historyViewContext w = Some l ->
  history_objects w !! l = Some c ->
  (length (selectAuthor svc (h_repo c)) = S (length (getAuthors svc (h_repo c))) /\
   displayed <$> selectAuthor svc (h_repo c) !! 0 = Some ("All", "") /\
   forall i a, getAuthors svc (h_repo c) !! i = Some a ->
               displayed <$> selectAuthor svc (h_repo c) !! S i
               = Some (author_name a, author_email a)) /\
  (answers w = Pick 0 :: rest ->
   current_history (exec (viewAuthorHistory svc) w) = Some (set_author "" c) /\
   loadAll (exec (viewAuthorHistory svc) w) = false) /\
  (answers w = Dismiss :: rest ->
   history_untouched w (exec (viewAuthorHistory svc) w) /\
   files_untouched w (exec (viewAuthorHistory svc) w)).
Proof.
  intros Hl Hc. split; [|split].
  - unfold selectAuthor. rewrite length_map. split; [done|]. split; [done|].
    intros i a Ha.
    change ((displayed <$> (map
               (fun author => {| pi_label := author_name author;
                                 pi_description := author_email author;
                                 openShaTextBox := false |})
               (getAuthors svc (h_repo c)) !! i))
            = Some (author_name a, author_email a)).
    by rewrite list_lookup_fmap, Ha.
  - intros Hans. unfold viewAuthorHistory, current_history. run. cbn.
    rewrite Hl, Hc, Hans. cbn.
    change (selectAuthor svc (h_repo c) !! 0)
      with (Some {| pi_label := "All"; pi_description := "";
                    openShaTextBox := false |}).
    cbn. rewrite Hl. cbn. rewrite Hc. cbn.
    split; [|done]. apply list_lookup_insert_eq. by eapply lookup_lt_Some.
  - intros Hans. unfold viewAuthorHistory, history_untouched, files_untouched.
    run. cbn. rewrite Hl, Hc, Hans. by cbn.
Qed.

Lemma selectAuthor_all_first_scenario :
  current_history (exec (viewAuthorHistory svc0) (world_with_history [Pick 0]))
  = Some (set_author "" (history_literal (Some repo0) None None None)) /\
  loadAll (exec (viewAuthorHistory svc0) (world_with_history [Pick 0])) = false.
Proof.
  destruct (selectAuthor_all_first svc0 (world_with_history [Pick 0]) 0
              (history_literal (Some repo0) None None None) []
              eq_refl eq_refl) as (_ & H & _).
  exact (H eq_refl).
Defined.

(** X10. [loadAll] is switched on by view-all-history only: after any
    other command it is on only if it was on before.  View-all-history
    always ends normally with [loadAll] on; it keeps the context the
    model holds when there is one, and otherwise publishes a new context
    of the first repository of the service (of no repository when there
    is none) without path, line, branch or author. *)
Theorem only_viewAllHistory_loads_all (svc : GitService) (w : World) :
  (forall c, c <> githd_viewAllHistory ->
             loadAll (exec (method svc c) w) = true -> loadAll w = true) /\
  result (viewAllHistory svc) w = Normal tt /\
  loadAll (exec (viewAllHistory svc) w) = true /\
  (forall l, historyViewContext w = Some l ->
             historyViewContext (exec (viewAllHistory svc) w) = Some l /\
             history_objects (exec (viewAllHistory svc) w) = history_objects w) /\
  (historyViewContext w = None ->
   historyViewContext (exec (viewAllHistory svc) w) = Some (length (history_objects w)) /\
   history_objects (exec (viewAllHistory svc) w)
   = history_objects w ++
     [history_literal (getGitRepos svc !! 0) None None None]).
Proof.
  split; [|split; [|split; [|split]]].
  - intros c Hc. destruct c; try done; unfold_handlers; run; crunch; done.
  - unfold viewAllHistory. run. cbn. by destruct (historyViewContext w).
  - unfold viewAllHistory. run. cbn. by destruct (historyViewContext w).
  - intros l Hl. unfold viewAllHistory. run. cbn. by rewrite Hl.
  - intros Hnone. unfold viewAllHistory. run. cbn. by rewrite Hnone.
Qed.

(** X11. The line-history flow needs an active editor even when a file is
    passed: without one the world stays as it is.  With an editor whose
    cursor is on line [n] (counted from 0), it publishes a new context
    for the file passed, or else for the document of the editor, with
    the repository of that file and the line [n + 1], so the line of a
    published context is never 0; it shows nothing. *)
Theorem viewLineHistory_line (svc : GitService) (w : World) (arg : option Uri) :
  (activeTextEditor w = None -> exec (viewLineHistory svc arg) w = w) /\
  (forall doc n, activeTextEditor w = Some (doc, n) ->
     let file := default doc arg in
     current_history (exec (viewLineHistory svc arg) w)
     = Some (history_literal (getGitRepo svc file) (Some file) (Some (n + 1)) None) /\
     historyViewContext (exec (viewLineHistory svc arg) w)
     = Some (length (history_objects w)) /\
     n + 1 <> 0 /\
     loadAll (exec (viewLineHistory svc arg) w) = false /\
     shown (exec (viewLineHistory svc arg) w) = shown w).
Proof.
  split.
  - intros Hed. unfold viewLineHistory. run. cbn. rewrite Hed. by destruct arg.
  - intros doc n Hed file. unfold viewLineHistory, current_history. run. cbn.
    rewrite Hed. subst file.
    destruct arg as [u|]; cbn; rewrite list_lookup_middle by done;
      repeat split; lia.
Qed.

Lemma viewLineHistory_line_scenario :
  current_history (exec (viewLineHistory svc0 None) (world_with_editor []))
  = Some (history_literal (Some repo0) (Some file0) (Some 42) None) /\
  exec (viewLineHistory svc0 (Some file0)) (world []) = world [].
Proof.
  split.
  - destruct (viewLineHistory_line svc0 (world_with_editor []) None) as [_ H].
    exact (proj1 (H file0 41 eq_refl)).
  - destruct (viewLineHistory_line svc0 (world []) (Some file0)) as [H _].
    exact (H eq_refl).
Defined.

(** X12. The file-history flow, and the folder-history flow, which is the
    same, never prompt: nothing is shown and no answer is used.  For a
    path that is passed they publish a new context with that path and
    its repository and nothing else, whatever the editor shows; without
    a path they use the document of the active editor, and without
    either they leave the world as it is. *)
Theorem viewFileHistory_publishes_path (svc : GitService) (w : World)
    (arg : option Uri) :
  viewFolderHistory svc arg = viewFileHistory svc arg /\
  shown (exec (viewFileHistory svc arg) w) = shown w /\
  answers (exec (viewFileHistory svc arg) w) = answers w /\
  (forall u, arg = Some u \/ (arg = None /\ fst <$> activeTextEditor w = Some u) ->
     current_history (exec (viewFileHistory svc arg) w)
     = Some (history_literal (getGitRepo svc u) (Some u) None None) /\
     historyViewContext (exec (viewFileHistory svc arg) w)
     = Some (length (history_objects w)) /\
     loadAll (exec (viewFileHistory svc arg) w) = false) /\
  (arg = None -> activeTextEditor w = None ->
   exec (viewFileHistory svc arg) w = w).
Proof.
  split; [reflexivity|].
  unfold viewFileHistory, current_history. run. cbn.
  repeat split.
  - by destruct arg, (activeTextEditor w).
  - by destruct arg, (activeTextEditor w).
  - destruct H as [-> | [-> Hed]]; cbn.
    + by rewrite list_lookup_middle.
    + rewrite Hed. cbn. by rewrite list_lookup_middle.
  - by destruct H as [-> | [-> ->]].
  - by destruct H as [-> | [-> ->]].
  - intros -> ->. reflexivity.
Qed.

(** X13. The branch-history flow without a context, once a repository is
    selected, shows the references without the manual entry and without
    marks; picking the [i]-th entry publishes a new context of the
    repository with the plain label of the [i]-th reference as branch and
    switches [loadAll] off, and dismissing the list changes neither
    view. *)
Theorem viewBranchHistory_publishes_branch (svc : GitService) (w : World)
    (k : nat) (r : GitRepo) (rest : list Answer) :
  getGitRepos svc !! k = Some r ->
  (forall i ref,
     getRefs svc (Some r) !! i = Some ref ->
     answers w = repo_answer svc k ++ Pick i :: rest ->
     current_history (exec (viewBranchHistory svc None) w)
     = Some (history_literal (Some r) None None (Some (ref_label ref))) /\
     historyViewContext (exec (viewBranchHistory svc None) w)
     = Some (length (history_objects w)) /\
     loadAll (exec (viewBranchHistory svc None) w) = false /\
     shown_by (viewBranchHistory svc None) w
     = repo_prompt svc ++
       [QuickPickShown (map plain_entry (getRefs svc (Some r)))
          ("Select a ref to see it's history (" +:+ root r +:+ ")")]) /\
  (answers w = repo_answer svc k ++ Dismiss :: rest ->
   history_untouched w (exec (viewBranchHistory svc None) w) /\
   files_untouched w (exec (viewBranchHistory svc None) w)).
Proof.
  intros Hk.
  assert (Hsel : forall (f : option GitRepo -> Async unit) tl,
             answers w = repo_answer svc k ++ tl ->
             (await_resolve (selectGitRepo svc) ≫= f) w
             = f (Some r) (after_repo svc tl w)).
  { intros f tl Hans.
    rewrite <- (then_selectGitRepo_chosen svc k r f tl w Hk Hans).
    unfold then_, await_resolve, selectGitRepo.
    destruct (Nat.eqb (length (getGitRepos svc)) 0) eqn:H0;
      [|by destruct (Nat.eqb (length (getGitRepos svc)) 1)].
    apply Nat.eqb_eq, nil_length_inv in H0. by rewrite H0 in Hk. }
  assert (Hplain : map (fun it : PickItem => (pi_label it, pi_description it))
                     (selectBranch svc (Some r) false false)
                   = map plain_entry (getRefs svc (Some r))).
  { unfold selectBranch. by rewrite map_map. }
  split.
  - intros i ref Hi Hans.
    assert (Hit : selectBranch svc (Some r) false false !! i
                  = Some (branch_item (getCurrentBranch svc (Some r)) false ref)).
    { unfold selectBranch.
      change (map (branch_item (getCurrentBranch svc (Some r)) false)
                (getRefs svc (Some r)) !! i = Some
                (branch_item (getCurrentBranch svc (Some r)) false ref)).
      by rewrite list_lookup_fmap, Hi. }
    unfold viewBranchHistory, current_history, shown_by, exec.
    rewrite (Hsel _ _ Hans). unfold after_repo. run. cbn.
    rewrite Hit. cbn. rewrite list_lookup_middle by done.
    repeat split.
    by rewrite <- app_assoc, drop_app_length, Hplain.
  - intros Hans.
    unfold viewBranchHistory, history_untouched, files_untouched, exec.
    rewrite (Hsel _ _ Hans). unfold after_repo. run. by cbn.
Qed.

Lemma viewBranchHistory_publishes_branch_scenario :
  current_history (exec (viewBranchHistory svc_two None) (world [Pick 1; Pick 1]))
  = Some (history_literal (Some repo1) None None (Some "v1")).
Proof.
  destruct (viewBranchHistory_publishes_branch svc_two (world [Pick 1; Pick 1])
              1 repo1 [] eq_refl) as [H _].
  exact (proj1 (H 1 ref_v1 eq_refl eq_refl)).
Defined.

(** X14. The branch-history flow invoked with a context reads the
    specified path of the context the model holds and the root of the
    repository of the context it is given before it prompts: when the
    model holds no history context, or when the given context has no
    repository, it ends with a [TypeError], with nothing shown and the
    world as it was. *)
Theorem viewBranchHistory_context_preconditions (svc : GitService) (w : World)
    (ctx : loc) (c : HistoryViewContext) :
  history_objects w !! ctx = Some c ->
  (historyViewContext w = None ->
   result (viewBranchHistory svc (Some ctx)) w
   = Thrown (TypeError "Cannot read properties of undefined (reading 'specifiedPath')") /\
   exec (viewBranchHistory svc (Some ctx)) w = w) /\
  (forall cur m,
     historyViewContext w = Some cur -> history_objects w !! cur = Some m ->
     h_repo c = None ->
     result (viewBranchHistory svc (Some ctx)) w
     = Thrown (TypeError "Cannot read properties of undefined (reading 'root')") /\
     exec (viewBranchHistory svc (Some ctx)) w = w).
Proof.
  intros Hc. split.
  - intros Hnone. unfold viewBranchHistory. run. cbn. by rewrite Hc, Hnone.
  - intros cur m Hcur Hm Hrepo. unfold viewBranchHistory, root_of. run. cbn.
    by rewrite Hc, Hcur, Hm, Hrepo.
Qed.

Lemma viewBranchHistory_context_preconditions_scenario :
  exec (viewBranchHistory svc0 (Some 0))
       (with_historyViewContext None (world_with_history [Pick 0]))
  = with_historyViewContext None (world_with_history [Pick 0]).
Proof.
  destruct (viewBranchHistory_context_preconditions svc0
              (with_historyViewContext None (world_with_history [Pick 0])) 0
              (history_literal (Some repo0) None None None) eq_refl) as [H _].
  exact (proj2 (H eq_refl)).
Defined.

(** X15. The view-history flow, once a repository is selected, publishes
    a new context that holds the repository and nothing else and switches
    [loadAll] off; when the list of repositories is dismissed it
    publishes nothing and changes neither view. *)
Theorem viewHistory_publishes_repo (svc : GitService) (w : World) :
  (forall k r rest,
     getGitRepos svc !! k = Some r ->
     answers w = repo_answer svc k ++ rest ->
     current_history (exec (viewHistory svc) w)
     = Some (history_literal (Some r) None None None) /\
     historyViewContext (exec (viewHistory svc) w)
     = Some (length (history_objects w)) /\
     loadAll (exec (viewHistory svc) w) = false /\
     answers (exec (viewHistory svc) w) = rest) /\
  (2 <= length (getGitRepos svc) ->
   forall rest, answers w = Dismiss :: rest ->
     history_untouched w (exec (viewHistory svc) w) /\
     files_untouched w (exec (viewHistory svc) w)).
Proof.
  split.
  - intros k r rest Hk Hans. unfold viewHistory, current_history, exec.
    rewrite (then_selectGitRepo_chosen svc k r _ _ w Hk Hans).
    unfold after_repo. run. cbn. by rewrite list_lookup_middle.
  - intros Hlen rest Hans.
    unfold viewHistory, selectGitRepo, history_untouched, files_untouched.
    destruct (Nat.eqb_spec (length (getGitRepos svc)) 0); [lia|].
    destruct (Nat.eqb_spec (length (getGitRepos svc)) 1); [lia|].
    run. cbn. rewrite Hans. by cbn.
Qed.

Lemma viewHistory_publishes_repo_scenario :
  current_history (exec (viewHistory svc_two) (world [Pick 1]))
  = Some (history_literal (Some repo1) None None None).
Proof.
  destruct (viewHistory_publishes_repo svc_two (world [Pick 1])) as [H _].
  exact (proj1 (H 1 repo1 [] eq_refl eq_refl)).
Defined.

(** *** The files commands *)

Lemma openCommittedFile_shown (file : GitCommittedFile) (w : World)
    (c : FilesViewContext) :
  current_files w = Some c ->
  shown_by (openCommittedFile file) w
  = [DiffOpened (toGitUri (file_uri file) (diff_sides c).1.1)
       (toGitUri (file_uri file) (diff_sides c).1.2)
       (to_string (diff_sides c).2 +:+ " | " +:+ basename (gitRelativePath file))] /\
  result (openCommittedFile file) w = Normal tt.
Proof.
  intros Hc. unfold shown_by, openCommittedFile. run. rewrite Hc.
  destruct (diff_sides c) as [[lref rref] title]. cbn.
  by rewrite drop_app_length.
Qed.

(** X16. However the user answers, the diff-file flow (and the
    diff-folder flow, which is the same) never shows an error message
    and never throws; it either publishes nothing or publishes a new
    context with the path it was given, the repository of that path, the
    current branch of that repository as [rightRef] and a [leftRef] that
    is a string and not empty.  Opening a committed file from a context
    it has published therefore compares [leftRef] itself with
    [rightRef], under a title that names both. *)
Theorem diffFile_publishes_usable_leftRef (svc : GitService) (sp : option Uri)
    (w : World) :
  diffFolder svc sp = diffFile svc sp /\
  result (diffFile svc sp) w = Normal tt /\
  (forall msg, ErrorMessageShown msg ∉ shown_by (diffFile svc sp) w) /\
  (files_untouched w (exec (diffFile svc sp) w) \/
   exists u l,
     sp = Some u /\ l <> "" /\
     filesViewContext (exec (diffFile svc sp) w) = Some (length (files_objects w)) /\
     current_files (exec (diffFile svc sp) w)
     = Some {| f_repo := getGitRepo svc u; leftRef := Str l;
               rightRef := getCurrentBranch svc (getGitRepo svc u);
               f_specifiedPath := Some u |} /\
     forall file,
       shown_by (openCommittedFile file) (exec (diffFile svc sp) w)
       = [DiffOpened
            (toGitUri (file_uri file) (Str l))
            (toGitUri (file_uri file) (getCurrentBranch svc (getGitRepo svc u)))
            ((l +:+ " .. " +:+ to_string (getCurrentBranch svc (getGitRepo svc u)))
               +:+ " | " +:+ basename (gitRelativePath file))]).
Proof.
  split; [reflexivity|].
  assert (Hcases :
    result (diffFile svc sp) w = Normal tt /\
    (forall msg, ErrorMessageShown msg ∉ shown_by (diffFile svc sp) w) /\
    (files_untouched w (exec (diffFile svc sp) w) \/
     exists u l,
       sp = Some u /\ negb (String.eqb l "") = true /\
       filesViewContext (exec (diffFile svc sp) w) = Some (length (files_objects w)) /\
       current_files (exec (diffFile svc sp) w)
       = Some {| f_repo := getGitRepo svc u; leftRef := Str l;
                 rightRef := getCurrentBranch svc (getGitRepo svc u);
                 f_specifiedPath := Some u |})).
  { unfold files_untouched, current_files, shown_by.
    unfold_handlers. run. crunch.
    all: split; [reflexivity|].
    all: split;
      [ intros msg Hin; rewrite <- ?app_assoc, ?drop_app_length, ?drop_all in Hin;
        repeat (apply elem_of_cons in Hin as [Hin|Hin]; [discriminate Hin|]);
        by apply elem_of_nil in Hin |].
    all: try (by left).
    all: right; do 2 eexists; split; [reflexivity|].
    all: rewrite ?list_lookup_middle by done; cbn.
    all: by repeat split. }
  destruct Hcases as (Hres & Hmsg & Hpub).
  split; [exact Hres|]. split; [exact Hmsg|].
  destruct Hpub as [Hnone | (u & l & Hsp & Hl & Hptr & Hctx)]; [by left|].
  right. exists u, l. repeat split; try done.
  - intros ->. discriminate Hl.
  - intros file.
    destruct (openCommittedFile_shown file _ _ Hctx) as [-> _].
    unfold diff_sides. cbn [leftRef rightRef truthy]. by rewrite Hl.
Qed.

(** X17. Opening a committed file while the model holds no files context
    ends with a [TypeError] with nothing shown.  After [clear], whose
    context has [null] references, it ends normally and compares the
    reference "null~" with the missing reference [null], under a title
    that starts with "null". *)
Theorem openCommittedFile_without_refs (file : GitCommittedFile) (w : World) :
  (current_files w = None ->
   result (openCommittedFile file) w
   = Thrown (TypeError "Cannot read properties of undefined (reading 'rightRef')") /\
   exec (openCommittedFile file) w = w) /\
  result (openCommittedFile file) (exec clear w) = Normal tt /\
  shown_by (openCommittedFile file) (exec clear w)
  = [DiffOpened (toGitUri (file_uri file) (Str "null~"))
       (toGitUri (file_uri file) Null)
       ("null | " +:+ basename (gitRelativePath file))].
Proof.
  split.
  - intros Hnone. unfold openCommittedFile. run. by rewrite Hnone.
  - assert (Hc : current_files (exec clear w)
                 = Some {| f_repo := None; leftRef := Null; rightRef := Null;
                           f_specifiedPath := None |}).
    { unfold current_files, clear. run. cbn. by rewrite list_lookup_middle. }
    destruct (openCommittedFile_shown file _ _ Hc) as [-> ->]. done.
Qed.

Lemma openCommittedFile_without_refs_scenario :
  result (openCommittedFile committed0) (world [])
  = Thrown (TypeError "Cannot read properties of undefined (reading 'rightRef')").
Proof.
  destruct (openCommittedFile_without_refs committed0 (world [])) as [H _].
  exact (proj1 (H eq_refl)).
Defined.

(** *** Git URIs *)

Lemma json_unescape_escape (c : ascii) (rest : string) :
  json_unescape (json_escape c +:+ rest) = String c (json_unescape rest).
Proof. destruct c as [[] [] [] [] [] [] [] []]; reflexivity. Qed.

Lemma json_unescape_escape_all (s : string) :
  json_unescape (json_escape_all s) = s.
Proof.
  induction s as [|c s IH]; [done|].
  cbn [json_escape_all]. by rewrite json_unescape_escape, IH.
Qed.

Lemma string_app_inv_tail (a b t : string) : a +:+ t = b +:+ t -> a = b.
Proof.
  intros H.
  assert (Hl : list_ascii_of_string a ++ list_ascii_of_string t
               = list_ascii_of_string b ++ list_ascii_of_string t).
  { assert (Happ : forall x y, list_ascii_of_string (x +:+ y)
                     = list_ascii_of_string x ++ list_ascii_of_string y).
    { intros x y. induction x as [|c x IH]; simpl; [done | by rewrite IH]. }
    by rewrite <- !Happ, H. }
  apply app_inv_tail in Hl.
  rewrite <- (string_of_list_ascii_of_string a), <- (string_of_list_ascii_of_string b).
  by rewrite Hl.
Qed.

Lemma json_string_inj (a b : string) : json_string a = json_string b -> a = b.
Proof.
  unfold json_string. intros H. injection H as H.
  apply string_app_inv_tail in H.
  by rewrite <- (json_unescape_escape_all a), <- (json_unescape_escape_all b), H.
Qed.

Lemma string_app_inv_head (p x y : string) : p +:+ x = p +:+ y -> x = y.
Proof.
  induction p as [|c p IH]; simpl; [done|].
  intros H. injection H as H. by apply IH.
Qed.

Lemma toGitUri_ref_inj (uri : Uri) (r1 r2 : opt_string) :
  toGitUri uri r1 = toGitUri uri r2 -> r1 = r2.
Proof.
  unfold toGitUri. intros H. injection H as H. unfold git_query in H.
  apply string_app_inv_head, string_app_inv_tail in H.
  destruct r1 as [| |s1], r2 as [| |s2]; try done; try discriminate H.
  apply (string_app_inv_head ","), (string_app_inv_head (json_string "ref")),
    (string_app_inv_head ":") in H.
  f_equal. by apply json_string_inj.
Qed.

(** X18. [toGitUri] has the scheme "git" and keeps the path of the uri,
    and for one file it tells references apart: two references, present
    or not, are given the same uri only if they are the same, so no two
    revisions of a file share a uri. *)
Theorem toGitUri_injective (uri : Uri) (r1 r2 : opt_string) :
  uri_scheme (toGitUri uri r1) = "git" /\
  uri_path (toGitUri uri r1) = uri_path uri /\
  (toGitUri uri r1 = toGitUri uri r2 -> r1 = r2).
Proof.
  split; [done|]. split; [done|]. apply toGitUri_ref_inj.
Qed.

(** X19. When a committed file is opened from a context whose [leftRef]
    is absent or empty, the flow ends normally and the two sides handed
    to the diff are never the same uri: the left side is the parent of
    the right one. *)
Theorem openCommittedFile_parent_differs (file : GitCommittedFile) (w : World)
    (c : FilesViewContext) :
  current_files w = Some c ->
  truthy (leftRef c) = false ->
  result (openCommittedFile file) w = Normal tt /\
  exists lside rside title,
    shown_by (openCommittedFile file) w = [DiffOpened lside rside title] /\
    lside = toGitUri (file_uri file) (Str (to_string (rightRef c) +:+ "~")) /\
    rside = toGitUri (file_uri file) (rightRef c) /\
    lside <> rside.
Proof.
  intros Hc Hfalsy.
  destruct (openCommittedFile_shown file w c Hc) as [Hshown Hres].
  split; [exact Hres|].
  unfold diff_sides in Hshown. rewrite Hfalsy in Hshown. cbn in Hshown.
  do 3 eexists. split; [exact Hshown|]. split; [done|]. split; [done|].
  intros Heq. apply toGitUri_ref_inj in Heq.
  destruct (rightRef c) as [| |s]; try discriminate Heq.
  injection Heq as Heq. apply (f_equal String.length) in Heq.
  rewrite string_length_append in Heq. cbn in Heq. lia.
Qed.

Lemma openCommittedFile_parent_differs_scenario :
  exists lside rside title,
    shown_by (openCommittedFile committed0)
      (exec (inputRef svc0) (world [Submit "abc123"]))
    = [DiffOpened lside rside title] /\
    lside = toGitUri file0 (Str "abc123~") /\
    rside = toGitUri file0 (Str "abc123") /\
    lside <> rside.
Proof.
  apply (openCommittedFile_parent_differs committed0
           (exec (inputRef svc0) (world [Submit "abc123"]))
           {| f_repo := Some repo0; leftRef := Null; rightRef := Str "abc123";
              f_specifiedPath := None |}); reflexivity.
Defined.

(** X20. The input-ref flow, once a repository is selected and a text is
    submitted, ends normally and publishes a new context of that
    repository whose [leftRef] is [null], whose [rightRef] is the
    trimmed text and which has no specified path.  The text is not
    checked further: a submission of white space only publishes the
    empty string as [rightRef]. *)
Theorem inputRef_publishes_trimmed (svc : GitService) (w : World) (k : nat)
    (r : GitRepo) (s : string) (rest : list Answer) :
  getGitRepos svc !! k = Some r ->
  answers w = repo_answer svc k ++ Submit s :: rest ->
  result (inputRef svc) w = Normal tt /\
  filesViewContext (exec (inputRef svc) w) = Some (length (files_objects w)) /\
  current_files (exec (inputRef svc) w)
  = Some {| f_repo := Some r; leftRef := Null; rightRef := Str (trim s);
            f_specifiedPath := None |} /\
  shown_by (inputRef svc) w
  = repo_prompt svc ++
    [InputBoxShown (PlaceHolder "Input a ref(sha1) to see it's committed files")] /\
  (trim s = "" ->
   rightRef <$> current_files (exec (inputRef svc) w) = Some (Str "")).
Proof.
  intros Hk Hans.
  unfold shown_by, current_files, result, exec, inputRef.
  rewrite (then_selectGitRepo_chosen svc k r _ _ w Hk Hans).
  unfold after_repo, trim_of. run. cbn.
  rewrite list_lookup_middle by done. cbn.
  rewrite <- app_assoc, drop_app_length.
  repeat split. by intros ->.
Qed.

Lemma inputRef_publishes_trimmed_scenario :
  current_files (exec (inputRef svc0) (world [Submit "   "]))
  = Some {| f_repo := Some repo0; leftRef := Null; rightRef := Str "";
            f_specifiedPath := None |}.
Proof.
  apply (inputRef_publishes_trimmed svc0 (world [Submit "   "]) 0 repo0 "   " []);
    reflexivity.
Defined.

(** *** Text entered for both sides, and exceptions *)

(** X21. In the diff-branch flow both lists are answered before any text
    is asked for.  When the manual entry is picked twice and two texts
    are submitted, the flow shows the list of sources, the list of
    targets (whose place holder names the label of the manual entry, not
    a reference), the prompt for the source and the prompt for the
    target, in this order, and publishes the first text as [leftRef] and
    the second as [rightRef], both as typed. *)
Theorem diffBranch_manual_both (svc : GitService) (w : World) (k : nat)
    (r : GitRepo) (a b : string) (rest : list Answer) :
  getGitRepos svc !! k = Some r ->
  answers w = repo_answer svc k ++ Pick 0 :: Pick 0 :: Submit a :: Submit b :: rest ->
  current_files (exec (diffBranch svc) w)
  = Some {| f_repo := Some r; leftRef := Str a; rightRef := Str b;
            f_specifiedPath := None |} /\
  shown_by (diffBranch svc) w
  = repo_prompt svc ++
    [QuickPickShown
       (displayed EnterShaPickItem :: map plain_entry (getRefs svc (Some r)))
       ("Select source branch to compare (" +:+ root r +:+ ")");
     QuickPickShown
       (displayed EnterShaPickItem :: map plain_entry (getRefs svc (Some r)))
       ("Select target branch to compare with Enter commit SHA (" +:+ root r +:+ ")");
     InputBoxShown (Prompt "Input a ref(sha1) as a source branch");
     InputBoxShown (Prompt "Input a ref(sha1) as a target branch")] /\
  answers (exec (diffBranch svc) w) = rest.
Proof.
  intros Hk Hans.
  unfold shown_by, current_files, exec, diffBranch.
  rewrite (then_selectGitRepo_chosen svc k r _ _ w Hk Hans).
  unfold _choseBranchOnPick, getRefFromQuickPickItem, after_repo. run. cbn.
  rewrite selectBranch_lookup_sentinel. cbn.
  rewrite selectBranch_lookup_sentinel. cbn.
  rewrite list_lookup_middle by done.
  rewrite <- !app_assoc, drop_app_length, !selectBranch_plain.
  by repeat split.
Qed.

Lemma diffBranch_manual_both_scenario :
  current_files (exec (diffBranch svc0)
                   (world [Pick 0; Pick 0; Submit "abc123 "; Submit "HEAD~2"]))
  = Some {| f_repo := Some repo0; leftRef := Str "abc123 "; rightRef := Str "HEAD~2";
            f_specifiedPath := None |}.
Proof.
  apply (diffBranch_manual_both svc0
           (world [Pick 0; Pick 0; Submit "abc123 "; Submit "HEAD~2"])
           0 repo0 "abc123 " "HEAD~2" []); reflexivity.
Defined.

(** X22. A command that ends with an exception has changed neither view:
    every exception of a handler is thrown before the handler publishes
    or assigns anything. *)
Theorem exceptions_leave_views_untouched (svc : GitService) (c : Invocation)
    (w : World) (e : Error) :
  result (method svc c) w = Thrown e ->
  files_untouched w (exec (method svc c) w) /\
  history_untouched w (exec (method svc c) w).
Proof.
  unfold files_untouched, history_untouched.
  destruct c; unfold_handlers; run; crunch; intros Hthrown;
    try discriminate Hthrown; try congruence; by repeat split.
Qed.

Lemma exceptions_leave_views_untouched_scenario :
  files_untouched (world [Dismiss]) (exec (inputRef svc0) (world [Dismiss])) /\
  history_untouched (world [Dismiss]) (exec (inputRef svc0) (world [Dismiss])).
Proof.
  apply (exceptions_leave_views_untouched svc0 githd_inputRef (world [Dismiss])
           (TypeError "Cannot read properties of undefined (reading 'trim')")).
  reflexivity.
Defined.

(** X23. The handlers of clear, view-file-history, view-folder-history,
    view-line-history, view-all-history, view-branch-history without a
    context, diff-file, diff-folder, open-line-diff and set-express-mode
    end normally in every world and for every answer of the user; so do
    view-history and diff-branch as soon as the service knows a
    repository, while with no repository they end with the [TypeError]
    of calling [then] on [null]. *)
Theorem handlers_that_never_throw (svc : GitService) (w : World) :
  (forall c, never_throws c = true -> result (method svc c) w = Normal tt) /\
  (getGitRepos svc <> [] ->
   result (viewHistory svc) w = Normal tt /\
   result (diffBranch svc) w = Normal tt) /\
  (getGitRepos svc = [] ->
   result (viewHistory svc) w
   = Thrown (TypeError "Cannot read properties of null (reading 'then')") /\
   result (diffBranch svc) w
   = Thrown (TypeError "Cannot read properties of null (reading 'then')") /\
   result (inputRef svc) w
   = Thrown (TypeError "Cannot read properties of null (reading 'then')")).
Proof.
  split; [|split].
  - intros c Hc. destruct c as [| | | | | |[?|]| | | | | | | |];
      try discriminate Hc; unfold_handlers; run; crunch; reflexivity.
  - intros Hrepos.
    assert (Hlen : Nat.eqb (length (getGitRepos svc)) 0 = false).
    { apply Nat.eqb_neq. by destruct (getGitRepos svc). }
    split; unfold_handlers; rewrite Hlen; run; crunch; reflexivity.
  - intros Hrepos. unfold_handlers. by rewrite Hrepos.
Qed.
